(** * Moonshot: the recipe registry and the ROUGE scorer

    A shallow embedding of
    - [moonshot/src/recipes/recipe.py] (class [Recipe]) and
    - [moonshot/data/metrics/rougescorer.py] (class [RougeScorer]),
    with the properties of their natural-language specification.

    Python exceptions are values of [exception]; a call that may raise
    returns a [result].  Dictionaries whose keys are data are [gmap]s (equal
    when they have the same entries, as [dict.__eq__]); JSON objects with a
    fixed set of keys are records. *)

From Stdlib Require Import ZArith QArith String Ascii.
From stdpp Require Import base option list strings gmap fin_maps.

Local Open Scope string_scope.
Local Open Scope list_scope.

(** ** Python runtime *)

Module Py.

Inductive exception : Type :=
| RuntimeError (msg : string)
| ZeroDivisionError
| IndexError
| LibraryError (msg : string).

(** [str(exception)] *)
Definition str (e : exception) : string :=
  match e with
  | RuntimeError msg => msg
  | ZeroDivisionError => "float division by zero"
  | IndexError => "list index out of range"
  | LibraryError msg => msg
  end.

Inductive result (A : Type) : Type :=
| Ok (a : A)
| Raise (e : exception).
Global Arguments Ok {A} a.
Global Arguments Raise {A} e.

Global Instance result_ret : MRet result := fun _ a => Ok a.
Global Instance result_bind : MBind result := fun _ _ f r =>
  match r with
  | Ok a => f a
  | Raise e => Raise e
  end.
Global Instance result_fmap : FMap result := fun _ _ f r =>
  match r with
  | Ok a => Ok (f a)
  | Raise e => Raise e
  end.

Definition is_Ok {A} (r : result A) : Prop := exists a, r = Ok a.
Definition is_Raise {A} (r : result A) : Prop := exists e, r = Raise e.

(** [try: body except Exception as e: raise handler(e)] *)
Definition try_except {A} (body : result A) (handler : exception -> exception)
  : result A :=
  match body with
  | Ok a => Ok a
  | Raise e => Raise (handler e)
  end.

(** [sub in s] on strings *)
Fixpoint contains (sub s : string) : bool :=
  String.prefix sub s ||
  match s with
  | EmptyString => false
  | String _ s' => contains sub s'
  end.

(** [s.split(sep)] for a one-character separator *)
Fixpoint split (sep : ascii) (s : string) : list string :=
  match s with
  | EmptyString => [EmptyString]
  | String a s' =>
      if Ascii.eqb a sep then EmptyString :: split sep s'
      else match split sep s' with
           | h :: t => String a h :: t
           | [] => [String a EmptyString]
           end
  end.

(** [s.rfind(c)]; [None] stands for -1 *)
Fixpoint rfind (c : ascii) (s : string) : option nat :=
  match s with
  | EmptyString => None
  | String a s' =>
      match rfind c s' with
      | Some i => Some (S i)
      | None => if Ascii.eqb a c then Some 0 else None
      end
  end.

(** [pathlib.PurePosixPath(p).name]: the last component of the path, empty
    and "." components being dropped by the parser *)
Definition Path_name (p : string) : string :=
  List.last
    (List.filter (fun x => negb (String.eqb x "") && negb (String.eqb x "."))
                 (split "/" p))
    "".

(** [pathlib.PurePosixPath(p).stem]: the name minus its last suffix; a dot
    in first or last position starts no suffix *)
Definition Path_stem (p : string) : string :=
  let name := Path_name p in
  match rfind "." name with
  | Some i =>
      if (Nat.ltb 0 i && Nat.ltb i (String.length name - 1))%bool
      then String.substring 0 i name
      else name
  | None => name
  end.

(** Truth value of a dict: non-empty *)
Definition truthy `{Countable K} {V} (d : gmap K V) : bool :=
  negb (bool_decide (d = ∅)).

End Py.
Import Py.

(** ** Collaborators of the registry *)

(** The derived statistics block attached to a recipe on read *)
Record Stats : Type := mkStats {
  num_of_tags : nat;
  num_of_datasets : nat;
  num_of_prompt_templates : nat;
  num_of_metrics : nat;
  num_of_attack_modules : nat;
  num_of_datasets_prompts : gmap string nat;
}.

Definition grading_scale_t : Type := list (string * list Z).

(** The JSON object of a recipe, as written to and read from storage and as
    returned by [Recipe._read_recipe]; [stats = None] when the object has no
    "stats" key *)
Module RecInfo.
Record t : Type := mk {
  id : string;
  name : string;
  description : string;
  tags : list string;
  categories : list string;
  datasets : list string;
  prompt_templates : list string;
  metrics : list string;
  attack_modules : list string;
  grading_scale : grading_scale_t;
  stats : option Stats;
}.

(** [d["stats"] = s] *)
Definition set_stats (d : t) (s : Stats) : t :=
  mk (id d) (name d) (description d) (tags d) (categories d) (datasets d)
     (prompt_templates d) (metrics d) (attack_modules d) (grading_scale d)
     (Some s).
End RecInfo.

Module RecipeArguments.
Record t : Type := mk {
  id : string;
  name : string;
  description : string;
  tags : list string;
  categories : list string;
  datasets : list string;
  prompt_templates : list string;
  metrics : list string;
  attack_modules : list string;
  grading_scale : grading_scale_t;
  stats : option Stats;
}.

(** The constructor call that unpacks the dict [d] into keyword arguments *)
Definition of_dict (d : RecInfo.t) : t :=
  mk (RecInfo.id d) (RecInfo.name d) (RecInfo.description d)
     (RecInfo.tags d) (RecInfo.categories d) (RecInfo.datasets d)
     (RecInfo.prompt_templates d) (RecInfo.metrics d)
     (RecInfo.attack_modules d) (RecInfo.grading_scale d) (RecInfo.stats d).

(** Modelled from the spec: [RecipeArguments.to_dict] is not among the
    sources.  The spec has [update] "re-serialize all fields (including
    anything client-supplied, e.g. a stale stats block if present)": every
    field is copied, the stats block included when the arguments carry one. *)
Definition to_dict (a : t) : RecInfo.t :=
  RecInfo.mk (id a) (name a) (description a) (tags a) (categories a)
             (datasets a) (prompt_templates a) (metrics a)
             (attack_modules a) (grading_scale a) (stats a).
End RecipeArguments.

(** Modelled from the spec: [moonshot.src.storage.storage.Storage] is not
    among the sources.  The spec has it a namespaced store of records
    "identified by a string id": [create_object] writes (or overwrites) the
    record of an id, [read_object] returns "payload or empty", [delete_object]
    removes a record and fails on "record not found", and [get_objects]
    returns the "sequence of record keys (filenames/ids), enumeration order
    store-defined".  One namespace in one format is a finite map from ids to
    payloads; the key enumerated for id [i] in format "json" is the file name
    [i.json]. *)
Module Storage.
Section Namespace.
Context {V : Type}.

Definition create_object (obj_id : string) (obj_info : V)
  (st : gmap string V) : gmap string V :=
  <[obj_id := obj_info]> st.

Definition read_object (obj_id : string) (st : gmap string V) : option V :=
  st !! obj_id.

Definition delete_object (obj_id : string) (st : gmap string V)
  : result unit * gmap string V :=
  match st !! obj_id with
  | Some _ => (Ok tt, delete obj_id st)
  | None => (Raise (RuntimeError ("No record found with ID: " +:+ obj_id)), st)
  end.

Definition get_objects (obj_extension : string) (st : gmap string V)
  : list string :=
  (fun i => i +:+ "." +:+ obj_extension) <$> (map_to_list st).*1.
End Namespace.
End Storage.

(** Modelled from the spec: [moonshot.src.datasets.dataset.Dataset] is not
    among the sources.  The spec has the catalog "enumerate datasets, each
    exposing id and prompt count", through
    [get_available_items(optionalIdFilter) -> (ids, [{id, promptCount}])],
    the filtered call being "a catalog lookup restricted to exactly" the ids
    given.  The catalog is a finite map from dataset ids to prompt counts. *)
Module Dataset.
Record DatasetArguments : Type := mk {
  id : string;
  num_of_dataset_prompts : nat;
}.

Definition get_available_items (datasets : option (list string))
  (catalog : gmap string nat) : list string * list DatasetArguments :=
  let found :=
    match datasets with
    | None => map_to_list catalog
    | Some ids =>
        omap (fun i => match catalog !! i with
                       | Some n => Some (i, n)
                       | None => None
                       end) ids
    end in
  (found.*1, (fun '(i, n) => mk i n) <$> found).
End Dataset.

(** ** The recipe registry: [moonshot/src/recipes/recipe.py] *)

(** What the registry reads and writes: the storage namespace
    [EnvVariables.RECIPES] in format "json", and the dataset catalog *)
Record World : Type := mkWorld {
  recipes : gmap string RecInfo.t;
  catalog : gmap string nat;
}.

Definition set_recipes (w : World) (st : gmap string RecInfo.t) : World :=
  mkWorld st (catalog w).

(** [{key(x): val(x) for x in l}]: entries are written from left to right, a
    later one replacing an earlier one with the same key *)
Definition dict_comprehension {A} (key : A -> string) (val : A -> nat)
  (l : list A) : gmap string nat :=
  foldl (fun d x => <[key x := val x]> d) ∅ l.

Module Recipe.

Record t : Type := mk {
  id : string;
  name : string;
  description : string;
  tags : list string;
  categories : list string;
  datasets : list string;
  prompt_templates : list string;
  metrics : list string;
  attack_modules : list string;
  grading_scale : grading_scale_t;
  stats : option Stats;
}.

(** [Recipe.__init__] *)
Definition init (rec_args : RecipeArguments.t) : t :=
  mk (RecipeArguments.id rec_args) (RecipeArguments.name rec_args)
     (RecipeArguments.description rec_args) (RecipeArguments.tags rec_args)
     (RecipeArguments.categories rec_args) (RecipeArguments.datasets rec_args)
     (RecipeArguments.prompt_templates rec_args)
     (RecipeArguments.metrics rec_args)
     (RecipeArguments.attack_modules rec_args)
     (RecipeArguments.grading_scale rec_args) (RecipeArguments.stats rec_args).

Definition _get_datasets_prompt_counts (w : World) : gmap string nat :=
  let '(_, dataset_results) := Dataset.get_available_items None (catalog w) in
  dict_comprehension Dataset.id Dataset.num_of_dataset_prompts dataset_results.

(** The store of a [World] holds recipe objects only, so the object read
    is false exactly when there is none; [RawRecipe._read_recipe] is the same
    function over stores that may hold the empty object. *)
Definition _read_recipe (w : World) (rec_id : string)
  (dataset_prompts_count : gmap string nat) : result RecInfo.t :=
  match Storage.read_object rec_id (recipes w) with
  | None =>
      Raise (RuntimeError ("Unable to get results for " +:+ rec_id +:+ "."))
  | Some obj_results =>
      let counts :=
        if truthy dataset_prompts_count then
          dict_comprehension
            (fun dataset_name => dataset_name)
            (fun dataset_name => default 0 (dataset_prompts_count !! dataset_name))
            (RecInfo.datasets obj_results)
        else
          let '(_, datasets_metadata) :=
            Dataset.get_available_items (Some (RecInfo.datasets obj_results))
                                        (catalog w) in
          dict_comprehension Dataset.id Dataset.num_of_dataset_prompts
                             datasets_metadata in
      let stats :=
        mkStats (length (RecInfo.tags obj_results))
                (length (RecInfo.datasets obj_results))
                (length (RecInfo.prompt_templates obj_results))
                (length (RecInfo.metrics obj_results))
                (length (RecInfo.attack_modules obj_results))
                counts in
      Ok (RecInfo.set_stats obj_results stats)
  end.

(** The handlers of this class print the exception and raise it again. *)
Definition reraise (e : exception) : exception := e.

Definition read (w : World) (rec_id : string) : result RecipeArguments.t :=
  try_except
    (if negb (String.eqb rec_id "") then
       RecipeArguments.of_dict <$> _read_recipe w rec_id ∅
     else Raise (RuntimeError "Recipe ID is empty"))
    reraise.

Definition load (w : World) (rec_id : string) : result t :=
  init <$> read w rec_id.

(** [slugify] is the python-slugify library function, called as
    [slugify(name, lowercase=True)]; the registry is parametric in it.  The
    write to storage does not raise in this model, so the body of the [try]
    always reaches its [return]. *)
Definition create (slugify : string -> string) (rec_args : RecipeArguments.t)
  (w : World) : result string * World :=
  let rec_id := slugify (RecipeArguments.name rec_args) in
  let rec_info :=
    RecInfo.mk rec_id (RecipeArguments.name rec_args)
               (RecipeArguments.description rec_args)
               (RecipeArguments.tags rec_args)
               (RecipeArguments.categories rec_args)
               (RecipeArguments.datasets rec_args)
               (RecipeArguments.prompt_templates rec_args)
               (RecipeArguments.metrics rec_args)
               (RecipeArguments.attack_modules rec_args)
               (RecipeArguments.grading_scale rec_args)
               None in
  (try_except (Ok rec_id) reraise,
   set_recipes w (Storage.create_object rec_id rec_info (recipes w))).

Definition update (rec_args : RecipeArguments.t) (w : World)
  : result bool * World :=
  let rec_info := RecipeArguments.to_dict rec_args in
  (try_except (Ok true) reraise,
   set_recipes w (Storage.create_object (RecipeArguments.id rec_args) rec_info
                                        (recipes w))).

Definition delete (rec_id : string) (w : World) : result bool * World :=
  match Storage.delete_object rec_id (recipes w) with
  | (Ok _, st) => (try_except (Ok true) reraise, set_recipes w st)
  | (Raise e, st) => (try_except (Raise e) reraise, set_recipes w st)
  end.

(** The loop of [get_available_items] over the enumerated keys, with the two
    lists it appends to *)
Fixpoint get_available_items_loop (w : World)
  (datasets_prompt_counts : gmap string nat) (recs : list string)
  (retn_recs_ids : list string) (retn_recs : list RecipeArguments.t)
  : result (list string * list RecipeArguments.t) :=
  match recs with
  | [] => Ok (retn_recs_ids, retn_recs)
  | rec :: recs' =>
      if contains "__" rec then
        get_available_items_loop w datasets_prompt_counts recs'
                                 retn_recs_ids retn_recs
      else
        rec_info ← RecipeArguments.of_dict <$>
                     _read_recipe w (Path_stem rec) datasets_prompt_counts;
        get_available_items_loop w datasets_prompt_counts recs'
          (retn_recs_ids ++ [RecipeArguments.id rec_info])
          (retn_recs ++ [rec_info])
  end.

Definition get_available_items (w : World)
  : result (list string * list RecipeArguments.t) :=
  try_except
    (let datasets_prompt_counts := _get_datasets_prompt_counts w in
     let recs := Storage.get_objects "json" (recipes w) in
     get_available_items_loop w datasets_prompt_counts recs [] [])
    reraise.

End Recipe.

(** ** The registry over stores that may hold an empty object *)

(** A stored JSON object as the test [if not obj_results] sees it: the empty
    object, which Python takes for false, or a recipe object with its keys.
    The stores of [World] hold recipe objects only; the functions that read
    are embedded here a second time, over stores that may hold the empty
    object as well. *)
Inductive payload : Type :=
| EmptyObject
| RecipeObject (obj_results : RecInfo.t).

Record RawWorld : Type := mkRawWorld {
  raw_recipes : gmap string payload;
  raw_catalog : gmap string nat;
}.

Definition set_raw_recipes (w : RawWorld) (st : gmap string payload)
  : RawWorld :=
  mkRawWorld st (raw_catalog w).

(** The store of [w], each object as a payload *)
Definition raw_world (w : World) : RawWorld :=
  mkRawWorld (RecipeObject <$> recipes w) (catalog w).

Module RawRecipe.

Definition _read_recipe (w : RawWorld) (rec_id : string)
  (dataset_prompts_count : gmap string nat) : result RecInfo.t :=
  match Storage.read_object rec_id (raw_recipes w) with
  | None | Some EmptyObject =>
      Raise (RuntimeError ("Unable to get results for " +:+ rec_id +:+ "."))
  | Some (RecipeObject obj_results) =>
      let counts :=
        if truthy dataset_prompts_count then
          dict_comprehension
            (fun dataset_name => dataset_name)
            (fun dataset_name => default 0 (dataset_prompts_count !! dataset_name))
            (RecInfo.datasets obj_results)
        else
          let '(_, datasets_metadata) :=
            Dataset.get_available_items (Some (RecInfo.datasets obj_results))
                                        (raw_catalog w) in
          dict_comprehension Dataset.id Dataset.num_of_dataset_prompts
                             datasets_metadata in
      let stats :=
        mkStats (length (RecInfo.tags obj_results))
                (length (RecInfo.datasets obj_results))
                (length (RecInfo.prompt_templates obj_results))
                (length (RecInfo.metrics obj_results))
                (length (RecInfo.attack_modules obj_results))
                counts in
      Ok (RecInfo.set_stats obj_results stats)
  end.

Definition read (w : RawWorld) (rec_id : string) : result RecipeArguments.t :=
  try_except
    (if negb (String.eqb rec_id "") then
       RecipeArguments.of_dict <$> _read_recipe w rec_id ∅
     else Raise (RuntimeError "Recipe ID is empty"))
    Recipe.reraise.

Definition load (w : RawWorld) (rec_id : string) : result Recipe.t :=
  Recipe.init <$> read w rec_id.

Definition delete (rec_id : string) (w : RawWorld) : result bool * RawWorld :=
  match Storage.delete_object rec_id (raw_recipes w) with
  | (Ok _, st) => (try_except (Ok true) Recipe.reraise, set_raw_recipes w st)
  | (Raise e, st) => (try_except (Raise e) Recipe.reraise, set_raw_recipes w st)
  end.

End RawRecipe.

(** A recipe object and worlds to run the registry on *)
Module Demo.

Definition args (name : string) (datasets : list string) (st : option Stats)
  : RecipeArguments.t :=
  RecipeArguments.mk "" name "a demo recipe" ["tag"] ["cat"] datasets
                     ["tmpl"] ["exactstrmatch"] [] [("A", [80%Z; 100%Z])] st.

Definition info (id : string) (datasets : list string) : RecInfo.t :=
  RecInfo.mk id id "a demo recipe" ["tag"] ["cat"] datasets
             ["tmpl"] ["exactstrmatch"] [] [("A", [80%Z; 100%Z])] None.

Definition cat2 : gmap string nat := <["squad" := 12]> (<["arc" := 7]> ∅).

Definition w0 : World :=
  mkWorld (<["r1" := info "r1" ["arc"; "ghost"]]>
           (<["__cache__" := info "__cache__" []]>
            (<["r2" := info "r2" ["squad"; "arc"]]> ∅)))
          cat2.

End Demo.

(** ** The ROUGE scorer: [moonshot/data/metrics/rougescorer.py] *)

(** Python floats, by their operations: the scorer adds scores to a running
    sum that starts at [0.0] and divides sums by [len(targets)].  Nothing is
    assumed of the operations, so what is proved holds of IEEE arithmetic as
    of exact arithmetic. *)
Class Float (F : Type) : Type := {
  fzero : F;
  fadd : F -> F -> F;
  fdiv_int : F -> nat -> F;
}.

(** Exact rationals, to run the scorer on *)
Global Instance Q_Float : Float Q := {
  fzero := 0%Q;
  fadd := Qplus;
  fdiv_int x n := Qdiv x (inject_Z (Z.of_nat n));
}.

Module RougeScorer.

(** [rouge_score.scoring.Score] *)
Record Score (F : Type) : Type := mkScore {
  precision : F;
  recall : F;
  fmeasure : F;
}.
Global Arguments mkScore {F} _ _ _.
Global Arguments precision {F} _.
Global Arguments recall {F} _.
Global Arguments fmeasure {F} _.

(** The dict with keys "r", "p" and "f" *)
Record rpf (F : Type) : Type := mk_rpf {
  r : F;
  p : F;
  f : F;
}.
Global Arguments mk_rpf {F} _ _ _.
Global Arguments r {F} _.
Global Arguments p {F} _.
Global Arguments f {F} _.

(** [output_dict]: the list under "rouge-scores" and the entries under the
    keys "avg_<metric>" *)
Record output (F : Type) : Type := mk_output {
  rouge_scores : list (gmap string (rpf F));
  averages : gmap string (rpf F);
}.
Global Arguments mk_output {F} _ _.
Global Arguments rouge_scores {F} _.
Global Arguments averages {F} _.

Record sums (F : Type) : Type := mk_sums {
  avg_recall : list F;
  avg_precision : list F;
  avg_fmeasure : list F;
}.
Global Arguments mk_sums {F} _ _ _.
Global Arguments avg_recall {F} _.
Global Arguments avg_precision {F} _.
Global Arguments avg_fmeasure {F} _.

Definition test_metrics : list string := ["rouge1"; "rouge2"; "rougeLsum"].

(** [enumerate(l, 0)] *)
Definition enumerate {A} (l : list A) : list (nat * A) :=
  imap (fun i x => (i, x)) l.

(** [l[i]] *)
Definition index {A} (l : list A) (i : nat) : result A :=
  match l !! i with
  | Some x => Ok x
  | None => Raise IndexError
  end.

Section Scorer.
Context {F : Type} `{Float F}.

(** [rouge_scorer.RougeScorer(test_metrics).score(target, prediction)], the
    overlap computation of the rouge_score library: a parameter.  It returns
    a score for each metric asked for, or raises. *)
Variable scorer_score : string -> string -> result (string -> Score F).

(** [l[i] += x] *)
Definition iadd (l : list F) (i : nat) (x : F) : result (list F) :=
  v ← index l i; Ok (<[i := fadd v x]> l).

(** [x / n] for a float [x] and an int [n] *)
Definition truediv (x : F) (n : nat) : result F :=
  if Nat.eqb n 0 then Raise ZeroDivisionError else Ok (fdiv_int x n).

(** The loop over the metrics, for one pair *)
Fixpoint metrics_loop (scores : string -> Score F) (ms : list (nat * string))
  (s : sums F) (test_metrics_dict : gmap string (rpf F))
  : result (sums F * gmap string (rpf F)) :=
  match ms with
  | [] => Ok (s, test_metrics_dict)
  | (test_metric_index, test_metric) :: ms' =>
      ar ← iadd (avg_recall s) test_metric_index (recall (scores test_metric));
      ap ← iadd (avg_precision s) test_metric_index
                (precision (scores test_metric));
      af ← iadd (avg_fmeasure s) test_metric_index
                (fmeasure (scores test_metric));
      metrics_loop scores ms' (mk_sums ar ap af)
        (<[test_metric := mk_rpf (recall (scores test_metric))
                                 (precision (scores test_metric))
                                 (fmeasure (scores test_metric))]>
           test_metrics_dict)
  end.

(** The loop over [zip(targets, predicted_results)] *)
Fixpoint pairs_loop (pairs : list (string * string)) (s : sums F)
  (individual_scores : list (gmap string (rpf F)))
  : result (sums F * list (gmap string (rpf F))) :=
  match pairs with
  | [] => Ok (s, individual_scores)
  | (target, result) :: pairs' =>
      scores ← scorer_score target result;
      '(s', test_metrics_dict) ← metrics_loop scores (enumerate test_metrics) s ∅;
      pairs_loop pairs' s' (individual_scores ++ [test_metrics_dict])
  end.

(** The loop over [enumerate(zip(avg_recall, avg_precision, avg_fmeasure))] *)
Fixpoint averages_loop (len_targets : nat) (rows : list (nat * (F * F * F)))
  (averages : gmap string (rpf F)) : result (gmap string (rpf F)) :=
  match rows with
  | [] => Ok averages
  | (avg_index, (recall, precision, fmeasure)) :: rows' =>
      r ← truediv recall len_targets;
      p ← truediv precision len_targets;
      f ← truediv fmeasure len_targets;
      test_metric ← index test_metrics avg_index;
      averages_loop len_targets rows'
                    (<["avg_" +:+ test_metric := mk_rpf r p f]> averages)
  end.

Definition get_results (prompts predicted_results targets : list string)
  : result (output F) :=
  try_except
    (let avg_recall := [fzero; fzero; fzero] in
     let avg_precision := [fzero; fzero; fzero] in
     let avg_fmeasure := [fzero; fzero; fzero] in
     '(s, individual_scores) ←
       pairs_loop (zip targets predicted_results)
                  (mk_sums avg_recall avg_precision avg_fmeasure) [];
     averages ←
       averages_loop (length targets)
         (enumerate (zip (zip (RougeScorer.avg_recall s)
                              (RougeScorer.avg_precision s))
                         (RougeScorer.avg_fmeasure s)))
         ∅;
     Ok (mk_output individual_scores averages))
    (fun exception =>
       RuntimeError ("Unable to calculate rouge score - " +:+ str exception)).

End Scorer.

(** An overlap function to run the scorer on: every metric scores 1 when
    the prediction is the target and 1/2 otherwise. *)
Definition demo_score (target prediction : string)
  : result (string -> Score Q) :=
  Ok (fun _ => if String.eqb target prediction
               then mkScore 1%Q 1%Q 1%Q
               else mkScore (1 # 2)%Q (1 # 2)%Q (1 # 2)%Q).

End RougeScorer.

(** * Vocabulary of the properties *)

(** ** The registry *)

(** The mapping built on the path with a precomputed map: one entry per id
    of the recipe's list, 0 for an id the map does not know *)
Definition counts_precomputed (m : gmap string nat) (datasets : list string)
  : gmap string nat :=
  dict_comprehension (fun dataset_name => dataset_name)
                     (fun dataset_name => default 0 (m !! dataset_name))
                     datasets.

(** The mapping built on the path that queries the catalog *)
Definition counts_fallback (cat : gmap string nat) (datasets : list string)
  : gmap string nat :=
  dict_comprehension Dataset.id Dataset.num_of_dataset_prompts
    (Dataset.get_available_items (Some datasets) cat).2.

(** The statistics [_read_recipe] attaches to the stored object [d] *)
Definition derive (w : World) (d : RecInfo.t) (m : gmap string nat) : Stats :=
  mkStats (length (RecInfo.tags d)) (length (RecInfo.datasets d))
          (length (RecInfo.prompt_templates d)) (length (RecInfo.metrics d))
          (length (RecInfo.attack_modules d))
          (if truthy m then counts_precomputed m (RecInfo.datasets d)
           else counts_fallback (catalog w) (RecInfo.datasets d)).

(** The per-dataset prompt counts of a read result *)
Definition prompt_counts_of (a : RecipeArguments.t) : option (gmap string nat) :=
  num_of_datasets_prompts <$> RecipeArguments.stats a.

(** The same of every record of a listing *)
Definition listed_prompt_counts
  (r : result (list string * list RecipeArguments.t))
  : result (list (option (gmap string nat))) :=
  match r with
  | Ok (_, retn_recs) => Ok (prompt_counts_of <$> retn_recs)
  | Raise e => Raise e
  end.

Definition stored_prompt_counts (r : result RecInfo.t)
  : result (option (gmap string nat)) :=
  match r with
  | Ok d => Ok (num_of_datasets_prompts <$> RecInfo.stats d)
  | Raise e => Raise e
  end.

Definition arc_only : gmap string nat := {["arc" := 7]}.
Definition arc_ghost : gmap string nat := <["ghost" := 0]> {["arc" := 7]}.
Definition arc_squad : gmap string nat := <["squad" := 12]> {["arc" := 7]}.

(** python-slugify's [slugify(text, lowercase=True)] on ASCII text without
    character references: letters are lower-cased, a comma between two
    digits is deleted, and the maximal runs of letters and digits are joined
    by single hyphens.  The registry takes the function as a parameter; this
    instance serves the examples. *)
Module Slugify.

Definition is_digit (a : ascii) : bool :=
  Nat.leb 48 (nat_of_ascii a) && Nat.leb (nat_of_ascii a) 57.

Definition is_upper (a : ascii) : bool :=
  Nat.leb 65 (nat_of_ascii a) && Nat.leb (nat_of_ascii a) 90.

Definition is_lower (a : ascii) : bool :=
  Nat.leb 97 (nat_of_ascii a) && Nat.leb (nat_of_ascii a) 122.

Definition lower (a : ascii) : ascii :=
  if is_upper a then ascii_of_nat (nat_of_ascii a + 32) else a.

Fixpoint lowercase (s : string) : string :=
  match s with
  | EmptyString => EmptyString
  | String a s' => String (lower a) (lowercase s')
  end.

Fixpoint cleanup_numbers (after_digit : bool) (s : string) : string :=
  match s with
  | EmptyString => EmptyString
  | String a s' =>
      let before_digit :=
        match s' with
        | String b _ => is_digit b
        | EmptyString => false
        end in
      if Ascii.eqb a "," && after_digit && before_digit
      then cleanup_numbers false s'
      else String a (cleanup_numbers (is_digit a) s')
  end.

Fixpoint runs (s : string) : list string :=
  match s with
  | EmptyString => [EmptyString]
  | String a s' =>
      if is_digit a || is_lower a then
        match runs s' with
        | h :: t => String a h :: t
        | [] => [String a EmptyString]
        end
      else EmptyString :: runs s'
  end.

Definition slugify (text : string) : string :=
  String.concat "-"
    (List.filter (fun r => negb (String.eqb r ""))
                 (runs (cleanup_numbers false (lowercase text)))).

End Slugify.

(** the nine base fields of a recipe: all but the id and the statistics *)
Definition base_fields_equal (r : Recipe.t) (fields : RecipeArguments.t) : Prop :=
  Recipe.name r = RecipeArguments.name fields
  /\ Recipe.description r = RecipeArguments.description fields
  /\ Recipe.tags r = RecipeArguments.tags fields
  /\ Recipe.categories r = RecipeArguments.categories fields
  /\ Recipe.datasets r = RecipeArguments.datasets fields
  /\ Recipe.prompt_templates r = RecipeArguments.prompt_templates fields
  /\ Recipe.metrics r = RecipeArguments.metrics fields
  /\ Recipe.attack_modules r = RecipeArguments.attack_modules fields
  /\ Recipe.grading_scale r = RecipeArguments.grading_scale fields.

(** the five counts of a statistics block are the lengths of the lists *)
Definition stats_count (s : Stats) (fields : RecipeArguments.t) : Prop :=
  num_of_tags s = length (RecipeArguments.tags fields)
  /\ num_of_datasets s = length (RecipeArguments.datasets fields)
  /\ num_of_prompt_templates s = length (RecipeArguments.prompt_templates fields)
  /\ num_of_metrics s = length (RecipeArguments.metrics fields)
  /\ num_of_attack_modules s = length (RecipeArguments.attack_modules fields).

Definition load_counts (r : result Recipe.t) : result (option (gmap string nat)) :=
  match r with
  | Ok rcp => Ok (num_of_datasets_prompts <$> Recipe.stats rcp)
  | Raise e => Raise e
  end.

Inductive operation : Type :=
| Create (rec_args : RecipeArguments.t)
| Update (rec_args : RecipeArguments.t).

Definition run_operation (slugify : string -> string) (w : World)
  (o : operation) : World :=
  match o with
  | Create rec_args => (Recipe.create slugify rec_args w).2
  | Update rec_args => (Recipe.update rec_args w).2
  end.

Definition run (slugify : string -> string) (ops : list operation) (w : World)
  : World :=
  foldl (run_operation slugify) w ops.

(** No stored recipe has a "stats" key. *)
Definition no_stats_on_disk (w : World) : Prop :=
  map_Forall (fun _ d => RecInfo.stats d = None) (recipes w).

(** The caller of [update] has stripped the statistics block. *)
Definition stripped (o : operation) : Prop :=
  match o with
  | Create _ => True
  | Update rec_args => RecipeArguments.stats rec_args = None
  end.

Definition stale_stats : Stats := mkStats 1 2 1 1 0 arc_squad.

Definition demo_operations : list operation :=
  [Create (Demo.args "My Recipe" ["arc"] (Some stale_stats));
   Update (RecipeArguments.mk "r2" "second" "edited" [] [] ["squad"] [] [] []
                              [] None);
   Create (Demo.args "Other" [] None)].

(** [x] occurs in [s] *)
Definition occurs (x s : string) : Prop := exists a b, s = a +:+ x +:+ b.

(** A key without the reserved mark *)
Definition listed (key : string) : bool := negb (contains "__" key).

(** The read [get_available_items] performs for an enumerated key, with the
    map [m] computed before the loop *)
Definition read_key (w : World) (m : gmap string nat) (key : string)
  : result RecipeArguments.t :=
  RecipeArguments.of_dict <$> Recipe._read_recipe w (Path_stem key) m.

(** A store whose only object has the key "alias" and the id field "r9" *)
Definition w_alias : World :=
  mkWorld {["alias" := Demo.info "r9" ["arc"]]} Demo.cat2.

(** The stored object [d] without its "stats" key *)
Definition strip (d : RecInfo.t) : RecInfo.t :=
  RecInfo.mk (RecInfo.id d) (RecInfo.name d) (RecInfo.description d)
             (RecInfo.tags d) (RecInfo.categories d) (RecInfo.datasets d)
             (RecInfo.prompt_templates d) (RecInfo.metrics d)
             (RecInfo.attack_modules d) (RecInfo.grading_scale d) None.

(** Every stored object carries its own key in its id field. *)
Definition key_is_id (w : World) : Prop :=
  map_Forall (fun k d => RecInfo.id d = k) (recipes w).

(** An object id that [Path(key).stem] recovers from the enumerated key:
    non-empty and without "/" *)
Definition plain (obj_id : string) : bool :=
  negb (String.eqb obj_id "") && negb (contains "/" obj_id).

(** The stored objects have plain ids. *)
Definition plain_store (w : World) : Prop :=
  forall i, is_Some (recipes w !! i) -> plain i = true.

(** The object ids of the store, in the order of the enumeration *)
Definition stored_ids (w : World) : list string :=
  (map_to_list (recipes w)).*1.

(** The record the listing builds from the stored object [d] *)
Definition listed_record (w : World) (d : RecInfo.t) : RecipeArguments.t :=
  RecipeArguments.of_dict
    (RecInfo.set_stats d (derive w d (Recipe._get_datasets_prompt_counts w))).

(** The records the listing builds for the object ids [ids]: none for an
    id with the reserved mark *)
Definition listed_records (w : World) (ids : list string)
  : list RecipeArguments.t :=
  omap (fun i => if contains "__" i then None
                 else listed_record w <$> recipes w !! i) ids.

(** The error of a read that finds no object *)
Definition not_found (rec_id : string) : exception :=
  RuntimeError ("Unable to get results for " +:+ rec_id +:+ ".").

(** Arguments for an update of the recipe "r2" that carry a statistics
    block *)
Definition renamed_r2 : RecipeArguments.t :=
  RecipeArguments.mk "r2" "renamed" "edited" ["tag"; "new"] [] ["squad"]
                     ["tmpl"] [] [] [("A", [80%Z; 100%Z])] (Some stale_stats).

(** A store that holds the empty object under the id "r0" *)
Definition w_empty_record : RawWorld :=
  mkRawWorld {["r0" := EmptyObject]} Demo.cat2.

(** A store whose only object has an id with a "/" *)
Definition w_nested : World :=
  mkWorld {["team/r1" := Demo.info "team/r1" ["arc"]]} Demo.cat2.

(** A store of two plain objects and a reserved one, all datasets known *)
Definition w_plain : World :=
  mkWorld (<["r1" := Demo.info "r1" ["arc"]]>
           (<["__cache__" := Demo.info "__cache__" []]>
            (<["r2" := Demo.info "r2" ["squad"; "arc"]]> ∅)))
          Demo.cat2.

(** ** The scorer *)

Section ScorerVocabulary.
Context {F : Type} `{Float F}.
Variable scorer_score : string -> string -> result (string -> RougeScorer.Score F).

Import RougeScorer.

(** The running sum of the loop: from [0.0], one addition per score, in order *)
Definition fsum (xs : list F) : F := foldl fadd fzero xs.

(** The values under the key [get] of the metric [m] over individual scores *)
Definition column (get : rpf F -> F) (m : string)
  (scores : list (gmap string (rpf F))) : list F :=
  omap (fun test_metrics_dict => get <$> test_metrics_dict !! m) scores.

(** The dict [metrics_loop] builds from the scores of one pair *)
Definition entry (scores : string -> Score F) : gmap string (rpf F) :=
  <["rougeLsum" := mk_rpf (recall (scores "rougeLsum"))
                          (precision (scores "rougeLsum"))
                          (fmeasure (scores "rougeLsum"))]>
  (<["rouge2" := mk_rpf (recall (scores "rouge2"))
                        (precision (scores "rouge2"))
                        (fmeasure (scores "rouge2"))]>
   (<["rouge1" := mk_rpf (recall (scores "rouge1"))
                         (precision (scores "rouge1"))
                         (fmeasure (scores "rouge1"))]> ∅)).

(** The scores of the pairs on which the overlap computation returns *)
Definition scores_of (pairs : list (string * string))
  : list (string -> Score F) :=
  omap (fun '(target, prediction) =>
          match scorer_score target prediction with
          | Ok scores => Some scores
          | Raise _ => None
          end) pairs.

(** The overlap computation returns on every pair. *)
Definition scorable (pairs : list (string * string)) : Prop :=
  Forall (fun '(target, prediction) => is_Ok (scorer_score target prediction))
         pairs.

(** The individual score [test_metrics_dict] is the one of the pair: the
    overlap computation returns on the pair, and the dict holds, for each
    metric, the recall, precision and f-measure it returns under "r", "p"
    and "f". *)
Definition scores_pair (pair : string * string)
  (test_metrics_dict : gmap string (rpf F)) : Prop :=
  exists scores,
    scorer_score pair.1 pair.2 = Ok scores
    /\ forall m, m ∈ test_metrics ->
         test_metrics_dict !! m
         = Some (mk_rpf (recall (scores m)) (precision (scores m))
                        (fmeasure (scores m))).

(** The entries under the keys "avg_<metric>", from the three sums *)
Definition averages_of (n : nat) (s : sums F) : gmap string (rpf F) :=
  match avg_recall s, avg_precision s, avg_fmeasure s with
  | [r1; r2; rL], [p1; p2; pL], [f1; f2; fL] =>
      <["avg_rougeLsum" := mk_rpf (fdiv_int rL n) (fdiv_int pL n) (fdiv_int fL n)]>
      (<["avg_rouge2" := mk_rpf (fdiv_int r2 n) (fdiv_int p2 n) (fdiv_int f2 n)]>
       (<["avg_rouge1" := mk_rpf (fdiv_int r1 n) (fdiv_int p1 n) (fdiv_int f1 n)]>
        ∅))
  | _, _, _ => ∅
  end.

(** The sums after the pairs with scores [scs], from the sums [s] *)
Definition sums_after (s : sums F) (scs : list (string -> Score F)) : sums F :=
  mk_sums
    ((fun '(i, m) => foldl fadd (default fzero (avg_recall s !! i))
                           ((fun sc => recall (sc m)) <$> scs))
       <$> enumerate test_metrics)
    ((fun '(i, m) => foldl fadd (default fzero (avg_precision s !! i))
                           ((fun sc => precision (sc m)) <$> scs))
       <$> enumerate test_metrics)
    ((fun '(i, m) => foldl fadd (default fzero (avg_fmeasure s !! i))
                           ((fun sc => fmeasure (sc m)) <$> scs))
       <$> enumerate test_metrics).

End ScorerVocabulary.

(** The error the scorer raises for the exception [e] caught in its [try] *)
Definition scoring_error (e : exception) : exception :=
  RuntimeError ("Unable to calculate rouge score - " +:+ str e).

(** An overlap function that raises on an empty prediction and scores as
    [RougeScorer.demo_score] otherwise *)
Definition strict_score (target prediction : string)
  : result (string -> RougeScorer.Score Q) :=
  if String.eqb prediction ""
  then Raise (LibraryError "empty prediction")
  else RougeScorer.demo_score target prediction.

(** * Properties *)

(** ** The runtime on examples *)

Example contains_reserved :
  contains "__" "__cache__.json" = true /\ contains "__" "my_recipe.json" = false.
Proof. split; reflexivity. Qed.

Example Path_stem_examples :
  Path_stem "my-recipe.json" = "my-recipe"
  /\ Path_stem "data/recipes/arc.v1.json" = "arc.v1"
  /\ Path_stem ".json" = ".json"
  /\ Path_stem "recipes/" = "recipes".
Proof. repeat split; reflexivity. Qed.

Example get_objects_example :
  Storage.get_objects "json" (recipes Demo.w0)
  = ["__cache__.json"; "r1.json"; "r2.json"].
Proof. vm_compute. reflexivity. Qed.

Example slugify_examples :
  Slugify.slugify "My Recipe" = "my-recipe"
  /\ Slugify.slugify "Top 1,000 Prompts (v2)" = "top-1000-prompts-v2"
  /\ Slugify.slugify "???" = "".
Proof. repeat split; reflexivity. Qed.

(** ** Dict comprehensions *)

Section DictComprehension.
Context {A : Type} (key : A -> string) (val : A -> nat).

Lemma foldl_insert_lookup (g : string -> nat) (l : list A)
  (d : gmap string nat) (k : string) :
  (forall x, x ∈ l -> val x = g (key x)) ->
  foldl (fun d x => <[key x := val x]> d) d l !! k
  = if decide (k ∈ key <$> l) then Some (g k) else d !! k.
Proof.
  revert d. induction l as [|x l IH]; intros d Hg.
  - rewrite decide_False; [done | apply not_elem_of_nil].
  - rewrite fmap_cons. change (foldl ?f d (x :: l)) with (foldl f (f d x) l).
    rewrite IH by (intros y Hy; apply Hg; by right).
    destruct (decide (k ∈ key <$> l)) as [Hin|Hout].
    + rewrite decide_True; [done | by right].
    + destruct (decide (key x = k)) as [<-|Hne].
      * rewrite lookup_insert_eq, decide_True; [|by left].
        f_equal. apply Hg. by left.
      * rewrite lookup_insert_ne by done.
        rewrite decide_False; [done|].
        intros [?|?]%elem_of_cons; congruence.
Qed.

Lemma dict_comprehension_lookup (g : string -> nat) (l : list A) (k : string) :
  (forall x, x ∈ l -> val x = g (key x)) ->
  dict_comprehension key val l !! k
  = if decide (k ∈ key <$> l) then Some (g k) else None.
Proof.
  intros Hg. unfold dict_comprehension.
  rewrite (foldl_insert_lookup g) by done. by rewrite lookup_empty.
Qed.

Lemma foldl_insert_dom (l : list A) (d : gmap string nat) :
  dom (foldl (fun d x => <[key x := val x]> d) d l)
  = dom d ∪ list_to_set (key <$> l).
Proof.
  revert d. induction l as [|x l IH]; intros d.
  - simpl. by rewrite union_empty_r_L.
  - rewrite fmap_cons. change (foldl ?f d (x :: l)) with (foldl f (f d x) l).
    rewrite IH, dom_insert_L. simpl.
    by rewrite (union_comm_L {[key x]} (dom d)), union_assoc_L.
Qed.

Lemma dict_comprehension_dom (l : list A) :
  dom (dict_comprehension key val l) = list_to_set (key <$> l).
Proof.
  unfold dict_comprehension.
  by rewrite foldl_insert_dom, dom_empty_L, union_empty_l_L.
Qed.

End DictComprehension.

Lemma truthy_empty : truthy (∅ : gmap string nat) = false.
Proof. reflexivity. Qed.

Lemma truthy_true (d : gmap string nat) : truthy d = true <-> d ≠ ∅.
Proof.
  unfold truthy. rewrite negb_true_iff, bool_decide_eq_false. done.
Qed.

Lemma truthy_false (d : gmap string nat) : truthy d = false <-> d = ∅.
Proof.
  unfold truthy. rewrite negb_false_iff, bool_decide_eq_true. done.
Qed.

(** ** The dataset catalog seen through the registry *)

(** The map [listAll] computes once is the catalog itself. *)
Lemma get_datasets_prompt_counts_catalog (w : World) :
  Recipe._get_datasets_prompt_counts w = catalog w.
Proof.
  unfold Recipe._get_datasets_prompt_counts, Dataset.get_available_items.
  apply map_eq. intros k.
  rewrite (dict_comprehension_lookup _ _ (fun i => default 0 (catalog w !! i))).
  - rewrite <- list_fmap_compose.
    destruct (decide _) as [Hin|Hout].
    + apply list_elem_of_fmap in Hin as ([i n] & -> & Hin).
      apply elem_of_map_to_list in Hin. simpl. by rewrite Hin.
    + destruct (catalog w !! k) as [n|] eqn:Hk; [|done].
      exfalso. apply Hout. apply list_elem_of_fmap.
      exists (k, n). split; [done|]. by apply elem_of_map_to_list.
  - intros x ([i n] & -> & Hin)%list_elem_of_fmap.
    apply elem_of_map_to_list in Hin. simpl. by rewrite Hin.
Qed.

Lemma counts_precomputed_lookup m datasets k :
  counts_precomputed m datasets !! k
  = if decide (k ∈ datasets) then Some (default 0 (m !! k)) else None.
Proof.
  unfold counts_precomputed.
  rewrite (dict_comprehension_lookup _ _ (fun i => default 0 (m !! i))) by done.
  by rewrite list_fmap_id.
Qed.

Lemma counts_precomputed_dom m datasets :
  dom (counts_precomputed m datasets) = list_to_set datasets.
Proof.
  unfold counts_precomputed. by rewrite dict_comprehension_dom, list_fmap_id.
Qed.

Lemma counts_fallback_lookup cat datasets k :
  counts_fallback cat datasets !! k
  = if decide (k ∈ datasets) then cat !! k else None.
Proof.
  unfold counts_fallback, Dataset.get_available_items. simpl.
  rewrite (dict_comprehension_lookup _ _ (fun i => default 0 (cat !! i))).
  - rewrite <- list_fmap_compose.
    destruct (decide (k ∈ _ <$> _)) as [Hin|Hout].
    + apply list_elem_of_fmap in Hin as ([i n] & -> & Hin).
      apply list_elem_of_omap in Hin as (j & Hj & Hjn).
      destruct (cat !! j) as [n'|] eqn:Hc; [|done].
      injection Hjn as <- <-. simpl.
      by rewrite decide_True, Hc.
    + destruct (decide (k ∈ datasets)) as [Hk|]; [|done].
      destruct (cat !! k) as [n|] eqn:Hc; [|done].
      exfalso. apply Hout. apply list_elem_of_fmap.
      exists (k, n). split; [done|].
      apply list_elem_of_omap. exists k. by rewrite Hc.
  - intros x ([i n] & -> & Hin)%list_elem_of_fmap.
    apply list_elem_of_omap in Hin as (j & Hj & Hjn).
    destruct (cat !! j) as [n'|] eqn:Hc; [|done].
    injection Hjn as <- <-. simpl. by rewrite Hc.
Qed.

Lemma counts_fallback_dom cat datasets :
  dom (counts_fallback cat datasets) = list_to_set datasets ∩ dom cat.
Proof.
  apply set_eq. intros k.
  rewrite elem_of_dom, counts_fallback_lookup, elem_of_intersection,
    elem_of_list_to_set, elem_of_dom.
  destruct (decide (k ∈ datasets)); [tauto|].
  split; [by intros [? ?]|tauto].
Qed.

(** ** Reading a recipe *)

Lemma read_recipe_eq (w : World) (rec_id : string) (m : gmap string nat) :
  Recipe._read_recipe w rec_id m
  = match recipes w !! rec_id with
    | Some d => Ok (RecInfo.set_stats d (derive w d m))
    | None =>
        Raise (RuntimeError ("Unable to get results for " +:+ rec_id +:+ "."))
    end.
Proof.
  unfold Recipe._read_recipe, Storage.read_object, derive.
  destruct (recipes w !! rec_id) as [d|]; [|done].
  by destruct (truthy m).
Qed.

(** On the path with a non-empty precomputed map the keys of the mapping are
    the recipe's dataset list, an id the map does not know counting 0. *)
Lemma read_recipe_precomputed (w : World) (rec_id : string)
  (m : gmap string nat) (d : RecInfo.t) :
  m ≠ ∅ -> recipes w !! rec_id = Some d ->
  exists s,
    Recipe._read_recipe w rec_id m = Ok (RecInfo.set_stats d s)
    /\ dom (num_of_datasets_prompts s) = list_to_set (RecInfo.datasets d)
    /\ forall k, k ∈ RecInfo.datasets d ->
         num_of_datasets_prompts s !! k = Some (default 0 (m !! k)).
Proof.
  intros Hm Hd. exists (derive w d m).
  rewrite read_recipe_eq, Hd. unfold derive. simpl.
  apply truthy_true in Hm. rewrite Hm.
  split; [done|]. split; [apply counts_precomputed_dom|].
  intros k Hk. by rewrite counts_precomputed_lookup, decide_True.
Qed.

(** On the path that queries the catalog the keys are the ids of the list
    that the catalog knows. *)
Lemma read_recipe_fallback (w : World) (rec_id : string) (d : RecInfo.t) :
  recipes w !! rec_id = Some d ->
  exists s,
    Recipe._read_recipe w rec_id ∅ = Ok (RecInfo.set_stats d s)
    /\ dom (num_of_datasets_prompts s)
       = list_to_set (RecInfo.datasets d) ∩ dom (catalog w)
    /\ forall k, k ∈ RecInfo.datasets d ->
         num_of_datasets_prompts s !! k = catalog w !! k.
Proof.
  intros Hd. exists (derive w d ∅).
  rewrite read_recipe_eq, Hd. unfold derive. rewrite truthy_empty. simpl.
  split; [done|]. split; [apply counts_fallback_dom|].
  intros k Hk. by rewrite counts_fallback_lookup, decide_True.
Qed.

(** The two paths agree on a recipe all of whose datasets the catalog knows. *)
Lemma read_recipe_paths_agree (w : World) (rec_id : string) :
  (forall d k, recipes w !! rec_id = Some d -> k ∈ RecInfo.datasets d ->
               is_Some (catalog w !! k)) ->
  Recipe._read_recipe w rec_id (Recipe._get_datasets_prompt_counts w)
  = Recipe._read_recipe w rec_id ∅.
Proof.
  intros Hknown. rewrite get_datasets_prompt_counts_catalog, !read_recipe_eq.
  destruct (recipes w !! rec_id) as [d|] eqn:Hd; [|done].
  do 2 f_equal. unfold derive. rewrite truthy_empty.
  destruct (truthy (catalog w)); [|done]. f_equal.
  apply map_eq. intros k.
  rewrite counts_precomputed_lookup, counts_fallback_lookup.
  destruct (decide (k ∈ RecInfo.datasets d)) as [Hk|]; [|done].
  by destruct (Hknown d k eq_refl Hk) as [n ->].
Qed.

(** C1, at the recipe "r1" of [Demo.w0], whose datasets are "arc" and "ghost",
    the catalog knowing "arc" and "squad" only: the read by id returns a
    mapping with the single key "arc", so the unknown id "ghost" is left out
    instead of being mapped to 0; the listing does the same once the catalog
    is empty, its precomputed map being empty then; with the non-empty
    catalog the listing maps "ghost" to 0. *)
Theorem read_omits_unknown_dataset :
  RecipeArguments.datasets <$> Recipe.read Demo.w0 "r1" = Ok ["arc"; "ghost"]
  /\ prompt_counts_of <$> Recipe.read Demo.w0 "r1" = Ok (Some arc_only)
  /\ listed_prompt_counts
       (Recipe.get_available_items (mkWorld (recipes Demo.w0) ∅))
     = Ok [Some ∅; Some ∅]
  /\ listed_prompt_counts (Recipe.get_available_items Demo.w0)
     = Ok [Some arc_ghost; Some arc_squad].
Proof. repeat split; vm_compute; reflexivity. Qed.

(** C2, at the same recipe: with the map of the full catalog the result
    carries the keys "arc" and "ghost", with the empty map the key "arc"
    only, so the two calls return different results. *)
Theorem read_recipe_paths_differ :
  let m := Recipe._get_datasets_prompt_counts Demo.w0 in
  stored_prompt_counts (Recipe._read_recipe Demo.w0 "r1" m) = Ok (Some arc_ghost)
  /\ stored_prompt_counts (Recipe._read_recipe Demo.w0 "r1" ∅)
     = Ok (Some arc_only)
  /\ Recipe._read_recipe Demo.w0 "r1" m <> Recipe._read_recipe Demo.w0 "r1" ∅.
Proof.
  split; [vm_compute; reflexivity|]. split; [vm_compute; reflexivity|].
  intros H. vm_compute in H. discriminate H.
Qed.

(** ** Create, update, delete *)

(** C4, as amended: for every field set whose name slugifies to a non-empty
    id and whose datasets are all known to the catalog, [create] returns that
    id and [load] of it returns a recipe whose base fields equal the field
    set, with the statistics populated (the five counts are the lengths of the
    lists) and the per-dataset counts keyed exactly by the field set's
    datasets. *)
Theorem create_then_load (slugify : string -> string)
  (fields : RecipeArguments.t) (w : World) :
  slugify (RecipeArguments.name fields) <> "" ->
  (forall k, k ∈ RecipeArguments.datasets fields -> is_Some (catalog w !! k)) ->
  exists (r : Recipe.t) (s : Stats),
    (Recipe.create slugify fields w).1
    = Ok (slugify (RecipeArguments.name fields))
    /\ Recipe.load (Recipe.create slugify fields w).2
                   (slugify (RecipeArguments.name fields)) = Ok r
    /\ Recipe.id r = slugify (RecipeArguments.name fields)
    /\ base_fields_equal r fields
    /\ Recipe.stats r = Some s
    /\ stats_count s fields
    /\ dom (num_of_datasets_prompts s)
       = list_to_set (RecipeArguments.datasets fields).
Proof.
  intros Hid Hknown.
  set (rec_id := slugify (RecipeArguments.name fields)) in *.
  destruct (Recipe.create slugify fields w) as [created w'] eqn:Hcreate.
  unfold Recipe.create in Hcreate. fold rec_id in Hcreate.
  injection Hcreate as <- <-. cbn [fst snd].
  set (w' := set_recipes w _).
  assert (exists d, recipes w' !! rec_id = Some d
                    /\ RecInfo.id d = rec_id
                    /\ base_fields_equal
                         (Recipe.init (RecipeArguments.of_dict d)) fields
                    /\ stats_count (derive w' d ∅) fields
                    /\ RecInfo.datasets d = RecipeArguments.datasets fields)
    as (d & Hd & Hdid & Hbase & Hcount & Hds).
  { eexists. split; [apply lookup_insert_eq|]. by repeat split. }
  exists (Recipe.init (RecipeArguments.of_dict
                         (RecInfo.set_stats d (derive w' d ∅)))),
         (derive w' d ∅).
  split; [reflexivity|]. split.
  { unfold Recipe.load, Recipe.read.
    apply String.eqb_neq in Hid. rewrite Hid. simpl negb. cbv iota.
    by rewrite read_recipe_eq, Hd. }
  split; [exact Hdid|]. split; [exact Hbase|].
  split; [reflexivity|]. split; [exact Hcount|].
  unfold derive. rewrite truthy_empty. cbn [num_of_datasets_prompts].
  rewrite counts_fallback_dom, Hds. apply set_eq. intros k.
  rewrite elem_of_intersection, elem_of_list_to_set, elem_of_dom.
  split; [tauto|]. intros Hk. split; [done|]. by apply Hknown.
Qed.

Lemma create_then_load_witness :
  exists (r : Recipe.t) (s : Stats),
    (Recipe.create Slugify.slugify (Demo.args "My Recipe" ["squad"; "arc"] None)
                   Demo.w0).1 = Ok "my-recipe"
    /\ Recipe.load
         (Recipe.create Slugify.slugify
            (Demo.args "My Recipe" ["squad"; "arc"] None) Demo.w0).2
         "my-recipe" = Ok r
    /\ Recipe.id r = "my-recipe"
    /\ base_fields_equal r (Demo.args "My Recipe" ["squad"; "arc"] None)
    /\ Recipe.stats r = Some s
    /\ stats_count s (Demo.args "My Recipe" ["squad"; "arc"] None)
    /\ dom (num_of_datasets_prompts s) = list_to_set ["squad"; "arc"].
Proof.
  apply (create_then_load Slugify.slugify
           (Demo.args "My Recipe" ["squad"; "arc"] None) Demo.w0).
  - vm_compute. discriminate.
  - intros k Hk. simpl in Hk.
    apply elem_of_cons in Hk as [->|Hk]; [by vm_compute; eexists|].
    apply elem_of_cons in Hk as [->|Hk]; [by vm_compute; eexists|].
    by apply elem_of_nil in Hk.
Defined.

(** C4 fails as stated: a name made of punctuation slugifies to the empty
    id, which [load] refuses; and for a field set naming a dataset the catalog
    does not know, [load] returns per-dataset counts without that key. *)
Lemma create_then_load_counterexample :
  (Recipe.create Slugify.slugify (Demo.args "???" ["arc"] None) Demo.w0).1
  = Ok ""
  /\ Recipe.load
       (Recipe.create Slugify.slugify (Demo.args "???" ["arc"] None) Demo.w0).2
       "" = Raise (RuntimeError "Recipe ID is empty")
  /\ load_counts
       (Recipe.load
          (Recipe.create Slugify.slugify (Demo.args "My Recipe" ["ghost"] None)
                         Demo.w0).2
          "my-recipe") = Ok (Some ∅).
Proof. repeat split; vm_compute; reflexivity. Qed.

(** *** What reaches storage *)

Lemma create_writes_no_stats slugify rec_args w :
  RecInfo.stats <$>
    recipes (Recipe.create slugify rec_args w).2
      !! slugify (RecipeArguments.name rec_args)
  = Some None.
Proof.
  unfold Recipe.create, Storage.create_object. simpl.
  by rewrite lookup_insert_eq.
Qed.

Lemma update_writes_given_stats rec_args w :
  RecInfo.stats <$>
    recipes (Recipe.update rec_args w).2 !! RecipeArguments.id rec_args
  = Some (RecipeArguments.stats rec_args).
Proof.
  unfold Recipe.update, Storage.create_object. simpl.
  by rewrite lookup_insert_eq.
Qed.

Lemma run_operation_no_stats slugify w o :
  no_stats_on_disk w -> stripped o ->
  no_stats_on_disk (run_operation slugify w o).
Proof.
  unfold no_stats_on_disk. intros Hw Ho.
  destruct o as [rec_args|rec_args]; simpl;
    unfold Storage.create_object; apply map_Forall_insert_2; done.
Qed.

(** C6, as amended: create never writes a stats field, whatever statistics
    the caller supplies, and update writes the statistics block of its
    arguments as supplied; so for every sequence of create and update
    operations whose updates are given arguments without a statistics block,
    run on storage holding no stats field, no stored record contains a stats
    field. *)
Theorem stats_reach_storage_through_update_only (slugify : string -> string)
  (ops : list operation) (w : World) :
  no_stats_on_disk w ->
  Forall stripped ops ->
  no_stats_on_disk (run slugify ops w)
  /\ (forall rec_args w',
        RecInfo.stats <$>
          recipes (Recipe.create slugify rec_args w').2
            !! slugify (RecipeArguments.name rec_args)
        = Some None)
  /\ (forall rec_args w',
        RecInfo.stats <$>
          recipes (Recipe.update rec_args w').2 !! RecipeArguments.id rec_args
        = Some (RecipeArguments.stats rec_args)).
Proof.
  intros Hw Hops. split; [|split].
  - unfold run. revert w Hw.
    induction Hops as [|o ops Ho Hops IH]; intros w Hw; simpl; [done|].
    apply IH. by apply run_operation_no_stats.
  - intros. apply create_writes_no_stats.
  - intros. apply update_writes_given_stats.
Qed.

Lemma stats_reach_storage_through_update_only_witness :
  no_stats_on_disk (run Slugify.slugify demo_operations Demo.w0)
  /\ (forall rec_args w',
        RecInfo.stats <$>
          recipes (Recipe.create Slugify.slugify rec_args w').2
            !! Slugify.slugify (RecipeArguments.name rec_args)
        = Some None)
  /\ (forall rec_args w',
        RecInfo.stats <$>
          recipes (Recipe.update rec_args w').2 !! RecipeArguments.id rec_args
        = Some (RecipeArguments.stats rec_args)).
Proof.
  apply (stats_reach_storage_through_update_only Slugify.slugify
           demo_operations Demo.w0).
  - unfold no_stats_on_disk, Demo.w0. simpl.
    repeat apply map_Forall_insert_2; try reflexivity.
    apply map_Forall_empty.
  - unfold demo_operations. repeat constructor.
Defined.

(** C6 fails as stated: reading the recipe "r2" of [Demo.w0] and passing the
    result to [update] writes a record that carries the statistics block of
    the read. *)
Lemma update_writes_stats_counterexample :
  exists rec_args,
    Recipe.read Demo.w0 "r2" = Ok rec_args
    /\ RecInfo.stats <$> recipes (Recipe.update rec_args Demo.w0).2 !! "r2"
       = Some (Some stale_stats).
Proof. eexists. split; vm_compute; reflexivity. Qed.

(** ** Failure of a read *)

Lemma read_eq (w : World) (rec_id : string) :
  Recipe.read w rec_id
  = if decide (rec_id = "") then Raise (RuntimeError "Recipe ID is empty")
    else match recipes w !! rec_id with
         | Some d =>
             Ok (RecipeArguments.of_dict (RecInfo.set_stats d (derive w d ∅)))
         | None =>
             Raise (RuntimeError
                      ("Unable to get results for " +:+ rec_id +:+ "."))
         end.
Proof.
  unfold Recipe.read. rewrite read_recipe_eq.
  destruct (decide (rec_id = "")) as [->|Hne]; [done|].
  apply String.eqb_neq in Hne. rewrite Hne. simpl.
  by destruct (recipes w !! rec_id).
Qed.

Lemma read_raises (w : World) (rec_id : string) :
  is_Raise (Recipe.read w rec_id)
  <-> rec_id = "" \/ recipes w !! rec_id = None.
Proof.
  rewrite read_eq. unfold is_Raise.
  destruct (decide (rec_id = "")) as [->|Hne].
  - split; [by left | by eexists].
  - destruct (recipes w !! rec_id) as [d|].
    + split; [by intros [e He] | by intros [?|?]].
    + split; [by right | by eexists].
Qed.

Lemma load_raises (w : World) (rec_id : string) :
  is_Raise (Recipe.load w rec_id) <-> is_Raise (Recipe.read w rec_id).
Proof.
  unfold Recipe.load, is_Raise.
  destruct (Recipe.read w rec_id) as [a|e]; simpl.
  - split; by intros [e He].
  - split; intros _; by eexists.
Qed.

Lemma delete_removes (w : World) (rec_id : string) :
  recipes (Recipe.delete rec_id w).2 !! rec_id = None.
Proof.
  unfold Recipe.delete, Storage.delete_object.
  destruct (recipes w !! rec_id) as [d|] eqn:Hd; simpl.
  - apply lookup_delete_eq.
  - exact Hd.
Qed.

(** Over a store of recipe objects, [read] and [load] raise exactly when
    the id is the empty string or the store holds no object of that id. *)
Lemma read_of_recipe_objects_raises_iff (w : World) (rec_id : string) :
  (is_Raise (Recipe.read w rec_id)
   <-> rec_id = "" \/ recipes w !! rec_id = None)
  /\ (is_Raise (Recipe.load w rec_id)
      <-> rec_id = "" \/ recipes w !! rec_id = None)
  /\ (rec_id <> "" -> recipes w !! rec_id = None ->
      Recipe.read w rec_id
      = Raise (RuntimeError ("Unable to get results for " +:+ rec_id +:+ "."))
      /\ Recipe.load w rec_id
         = Raise (RuntimeError
                    ("Unable to get results for " +:+ rec_id +:+ ".")))
  /\ is_Raise (Recipe.load (Recipe.delete rec_id w).2 rec_id).
Proof.
  split; [apply read_raises|].
  split; [rewrite load_raises; apply read_raises|].
  split.
  - intros Hne Habs. unfold Recipe.load. rewrite read_eq.
    rewrite decide_False by done. by rewrite Habs.
  - apply load_raises, read_raises. right. apply delete_removes.
Qed.

(** *** Over stores that may hold an empty object *)

Lemma raw_read_recipe (w : World) (rec_id : string) (m : gmap string nat) :
  RawRecipe._read_recipe (raw_world w) rec_id m = Recipe._read_recipe w rec_id m.
Proof.
  unfold RawRecipe._read_recipe, Recipe._read_recipe, Storage.read_object,
    raw_world.
  cbn [raw_recipes raw_catalog]. rewrite lookup_fmap.
  by destruct (recipes w !! rec_id).
Qed.

(** On a store of recipe objects the two embeddings of [read] agree. *)
Lemma raw_read (w : World) (rec_id : string) :
  RawRecipe.read (raw_world w) rec_id = Recipe.read w rec_id.
Proof. unfold RawRecipe.read, Recipe.read. by rewrite raw_read_recipe. Qed.

Lemma raw_read_eq (w : RawWorld) (rec_id : string) :
  RawRecipe.read w rec_id
  = if decide (rec_id = "") then Raise (RuntimeError "Recipe ID is empty")
    else RecipeArguments.of_dict <$> RawRecipe._read_recipe w rec_id ∅.
Proof.
  unfold RawRecipe.read.
  destruct (decide (rec_id = "")) as [->|Hne]; [done|].
  apply String.eqb_neq in Hne. rewrite Hne. simpl.
  by destruct (RawRecipe._read_recipe w rec_id ∅).
Qed.

Lemma raw_read_not_found (w : RawWorld) (rec_id : string) :
  rec_id <> "" ->
  raw_recipes w !! rec_id = None \/ raw_recipes w !! rec_id = Some EmptyObject ->
  RawRecipe.read w rec_id
  = Raise (RuntimeError ("Unable to get results for " +:+ rec_id +:+ ".")).
Proof.
  intros Hne Hstored. rewrite raw_read_eq, decide_False by done.
  unfold RawRecipe._read_recipe, Storage.read_object.
  by destruct Hstored as [-> | ->].
Qed.

Lemma raw_delete_removes (w : RawWorld) (rec_id : string) :
  raw_recipes (RawRecipe.delete rec_id w).2 !! rec_id = None.
Proof.
  unfold RawRecipe.delete, Storage.delete_object.
  destruct (raw_recipes w !! rec_id) as [d|] eqn:Hd; simpl.
  - apply lookup_delete_eq.
  - exact Hd.
Qed.

Lemma raw_read_raises_if (w : RawWorld) (rec_id : string) :
  rec_id = "" \/ raw_recipes w !! rec_id = None ->
  is_Raise (RawRecipe.read w rec_id) /\ is_Raise (RawRecipe.load w rec_id).
Proof.
  intros Hcase.
  assert (is_Raise (RawRecipe.read w rec_id)) as [e He].
  { destruct (decide (rec_id = "")) as [->|Hne]; [by eexists|].
    destruct Hcase as [?|Habs]; [done|].
    rewrite raw_read_not_found by auto. by eexists. }
  split; [by exists e|]. unfold RawRecipe.load. rewrite He. by exists e.
Qed.

(** C8, as amended: [read], and hence [load], raises when the id is the
    empty string or storage holds no record of that id; for a non-empty id
    without a record the error is the RuntimeError with the message
    "Unable to get results for <id>." (with a full stop); after [delete] of an
    id, [load] of that id raises; and [read] raises that same error for a
    non-empty id whose record is present and is the empty object, so that a
    failure does not tell that the record is absent. *)
Theorem read_fails_if_empty_or_absent (w : RawWorld) (rec_id : string) :
  (rec_id = "" \/ raw_recipes w !! rec_id = None ->
   is_Raise (RawRecipe.read w rec_id) /\ is_Raise (RawRecipe.load w rec_id))
  /\ (rec_id <> "" -> raw_recipes w !! rec_id = None ->
      RawRecipe.read w rec_id
      = Raise (RuntimeError ("Unable to get results for " +:+ rec_id +:+ "."))
      /\ RawRecipe.load w rec_id
         = Raise (RuntimeError
                    ("Unable to get results for " +:+ rec_id +:+ ".")))
  /\ is_Raise (RawRecipe.load (RawRecipe.delete rec_id w).2 rec_id)
  /\ (rec_id <> "" -> raw_recipes w !! rec_id = Some EmptyObject ->
      RawRecipe.read w rec_id
      = Raise (RuntimeError ("Unable to get results for " +:+ rec_id +:+ "."))).
Proof.
  split; [apply raw_read_raises_if|]. split; [|split].
  - intros Hne Habs. unfold RawRecipe.load.
    by rewrite raw_read_not_found by auto.
  - apply raw_read_raises_if. right. apply raw_delete_removes.
  - intros Hne Hempty. apply raw_read_not_found; auto.
Qed.

(** C8 fails as stated: the store [w_empty_record] holds a record under the
    non-empty id "r0", the empty object, and [read] of "r0" raises; and the
    message of the error for an id without a record ends in a full stop,
    which the message of the claim does not have. *)
Lemma read_fails_counterexample :
  "r0" <> ""
  /\ raw_recipes w_empty_record !! "r0" = Some EmptyObject
  /\ RawRecipe.read w_empty_record "r0"
     = Raise (RuntimeError "Unable to get results for r0.")
  /\ RawRecipe.read w_empty_record "r9"
     = Raise (RuntimeError "Unable to get results for r9.")
  /\ RawRecipe.read w_empty_record "r9"
     <> Raise (RuntimeError "Unable to get results for r9").
Proof.
  split; [discriminate|]. split; [reflexivity|].
  split; [reflexivity|]. split; [reflexivity|].
  intros H. vm_compute in H. discriminate H.
Qed.

(** ** Strings and paths: the reserved mark of a key *)

Lemma str_app_cons (c : ascii) (s t : string) :
  String c s +:+ t = String c (s +:+ t).
Proof. reflexivity. Qed.

Lemma str_app_nil_l (t : string) : "" +:+ t = t.
Proof. reflexivity. Qed.

Lemma str_app_assoc (s1 s2 s3 : string) :
  (s1 +:+ s2) +:+ s3 = s1 +:+ (s2 +:+ s3).
Proof.
  induction s1 as [|c s1 IH]; [done|]. by rewrite !str_app_cons, IH.
Qed.

Lemma str_app_nil_r (s : string) : s +:+ "" = s.
Proof.
  induction s as [|c s IH]; [done|]. by rewrite str_app_cons, IH.
Qed.

Lemma occurs_refl (s : string) : occurs s s.
Proof. exists "", "". by rewrite str_app_nil_l, str_app_nil_r. Qed.

Lemma occurs_trans (x y z : string) : occurs x y -> occurs y z -> occurs x z.
Proof.
  intros (a & b & ->) (c & d & ->).
  exists (c +:+ a), (b +:+ d). by rewrite !str_app_assoc.
Qed.

Lemma occurs_empty (s : string) : occurs "" s.
Proof. by exists "", s. Qed.

Lemma occurs_prefix (x b : string) : occurs x (x +:+ b).
Proof. by exists "", b. Qed.

Lemma occurs_cons (c : ascii) (x s : string) :
  occurs x s -> occurs x (String c s).
Proof. intros (a & b & ->). by exists (String c a), b. Qed.

Lemma prefix_spec (x s : string) :
  String.prefix x s = true <-> exists b, s = x +:+ b.
Proof.
  revert s. induction x as [|c x IH]; intros s.
  - destruct s; simpl; split; eauto.
  - destruct s as [|d s]; simpl.
    + split; [done | by intros [b Hb]].
    + destruct (ascii_dec c d) as [->|Hne].
      * rewrite IH. split; intros [b Hb]; exists b.
        -- by rewrite str_app_cons, <- Hb.
        -- rewrite str_app_cons in Hb. congruence.
      * split; [done|]. intros [b Hb].
        rewrite str_app_cons in Hb. congruence.
Qed.

Lemma contains_nil (x : string) :
  contains x "" = String.prefix x "" || false.
Proof. reflexivity. Qed.

Lemma contains_cons (x : string) (c : ascii) (s : string) :
  contains x (String c s) = String.prefix x (String c s) || contains x s.
Proof. reflexivity. Qed.

Lemma contains_spec (x s : string) : contains x s = true <-> occurs x s.
Proof.
  split.
  - induction s as [|c s IH].
    + rewrite contains_nil, orb_true_iff. intros [Hp|?]; [|done].
      apply prefix_spec in Hp as [b ->]. apply occurs_prefix.
    + rewrite contains_cons, orb_true_iff. intros [Hp|Hc].
      * apply prefix_spec in Hp as [b ->]. apply occurs_prefix.
      * by apply occurs_cons, IH.
  - intros (a & b & ->). induction a as [|c a IH].
    + assert (String.prefix x (x +:+ b) = true) as Hp
        by (apply prefix_spec; eauto).
      rewrite str_app_nil_l.
      destruct (x +:+ b); [rewrite contains_nil | rewrite contains_cons];
        by rewrite Hp.
    + by rewrite str_app_cons, contains_cons, IH, orb_true_r.
Qed.

Lemma split_head (sep : ascii) (s : string) :
  exists h t b, split sep s = h :: t /\ s = h +:+ b.
Proof.
  induction s as [|c s (h & t & b & Hs & Hb)]; simpl.
  - by exists "", [], "".
  - destruct (Ascii.eqb c sep).
    + by exists "", (split sep s), (String c s).
    + rewrite Hs. exists (String c h), t, b.
      by rewrite str_app_cons, <- Hb.
Qed.

Lemma split_occurs (sep : ascii) (s x : string) :
  x ∈ split sep s -> occurs x s.
Proof.
  revert x. induction s as [|c s IH]; simpl; intros x Hx.
  - apply list_elem_of_singleton in Hx as ->. apply occurs_refl.
  - destruct (Ascii.eqb c sep).
    + apply elem_of_cons in Hx as [->|Hx]; [apply occurs_empty|].
      by apply occurs_cons, IH.
    + destruct (split_head sep s) as (h & t & b & Hs & Hb).
      rewrite Hs in Hx, IH.
      apply elem_of_cons in Hx as [->|Hx].
      * exists "", b. by rewrite str_app_nil_l, str_app_cons, <- Hb.
      * apply occurs_cons, IH. by right.
Qed.

Lemma last_elem_of {A} (l : list A) (d : A) :
  List.last l d = d \/ List.last l d ∈ l.
Proof.
  induction l as [|x l IH]; [by left|].
  destruct l as [|y l]; [right; by left|].
  destruct IH as [IH|IH]; [by left|]. right. by right.
Qed.

Lemma Path_name_occurs (p : string) : occurs (Path_name p) p.
Proof.
  unfold Path_name.
  destruct (last_elem_of
              (List.filter
                 (fun x => negb (String.eqb x "") && negb (String.eqb x "."))
                 (split "/" p)) "") as [->|Hin].
  - apply occurs_empty.
  - apply list_elem_of_In, filter_In in Hin as [Hin _].
    apply (split_occurs "/"). by apply list_elem_of_In.
Qed.

Lemma substring_prefix (n : nat) (s : string) :
  exists b, s = String.substring 0 n s +:+ b.
Proof.
  revert s. induction n as [|n IH]; intros s.
  - exists s. by destruct s.
  - destruct s as [|c s]; [by exists ""|].
    destruct (IH s) as [b Hb]. exists b. simpl.
    by rewrite str_app_cons, <- Hb.
Qed.

Lemma Path_stem_occurs (p : string) : occurs (Path_stem p) p.
Proof.
  assert (occurs (Path_stem p) (Path_name p)) as Hstem.
  { unfold Path_stem. destruct (rfind "." (Path_name p)) as [i|].
    - destruct (_ && _); [|apply occurs_refl].
      destruct (substring_prefix i (Path_name p)) as [b Hb].
      rewrite Hb at 2. apply occurs_prefix.
    - apply occurs_refl. }
  eapply occurs_trans; [exact Hstem | apply Path_name_occurs].
Qed.

(** The id a key is read under carries the mark only if the key does. *)
Lemma Path_stem_contains (x p : string) :
  contains x p = false -> contains x (Path_stem p) = false.
Proof.
  intros Hp. apply not_true_is_false. intros Hs.
  apply contains_spec in Hs.
  assert (contains x p = true) as Hc; [|congruence].
  apply contains_spec. eapply occurs_trans; [exact Hs|]. apply Path_stem_occurs.
Qed.

Lemma prefix_cons (c d : ascii) (x s : string) :
  String.prefix (String c x) (String d s)
  = if ascii_dec c d then String.prefix x s else false.
Proof. reflexivity. Qed.

(** The key enumerated for an object id carries the mark exactly when the id
    does. *)
Lemma contains_mark_json (i : string) :
  contains "__" (i +:+ ".json") = contains "__" i.
Proof.
  induction i as [|c i IH]; [reflexivity|].
  rewrite str_app_cons, !contains_cons, IH. f_equal.
  rewrite !prefix_cons.
  destruct (ascii_dec "_" c); [|reflexivity].
  destruct i as [|d i]; [reflexivity|].
  rewrite str_app_cons, !prefix_cons.
  destruct (ascii_dec "_" d); [|reflexivity]. destruct i; reflexivity.
Qed.

(** ** Listing *)

Lemma get_available_items_loop_spec (w : World) (m : gmap string nat)
  (recs : list string) (ids0 : list string) (rs0 : list RecipeArguments.t)
  (ids : list string) (rs : list RecipeArguments.t) :
  Recipe.get_available_items_loop w m recs ids0 rs0 = Ok (ids, rs) ->
  exists new,
    Forall2 (fun key r => read_key w m key = Ok r) (List.filter listed recs) new
    /\ rs = rs0 ++ new
    /\ ids = ids0 ++ (RecipeArguments.id <$> new).
Proof.
  revert ids0 rs0. induction recs as [|rec recs IH]; intros ids0 rs0 Hloop.
  - injection Hloop as <- <-. exists []. simpl.
    by rewrite !app_nil_r.
  - simpl in Hloop. unfold listed at 1. simpl.
    destruct (contains "__" rec) eqn:Hmark; simpl.
    + by apply IH.
    + fold (read_key w m rec) in Hloop.
      destruct (read_key w m rec) as [rec_info|e] eqn:Hread; [|done].
      simpl in Hloop. apply IH in Hloop as (new & Hnew & -> & ->).
      exists (rec_info :: new). split; [by constructor|].
      by rewrite <- !app_assoc.
Qed.

Lemma get_available_items_spec (w : World)
  (ids : list string) (rs : list RecipeArguments.t) :
  Recipe.get_available_items w = Ok (ids, rs) ->
  Forall2 (fun key r => read_key w (Recipe._get_datasets_prompt_counts w) key
                        = Ok r)
          (List.filter listed (Storage.get_objects "json" (recipes w))) rs
  /\ ids = RecipeArguments.id <$> rs.
Proof.
  unfold Recipe.get_available_items, try_except. intros Hget.
  destruct (Recipe.get_available_items_loop _ _ _ _ _) as [[ids' rs']|e] eqn:Hloop;
    [|done].
  injection Hget as -> ->.
  by apply get_available_items_loop_spec in Hloop as (new & Hnew & -> & ->).
Qed.

Lemma read_key_stored (w : World) (m : gmap string nat) (key : string)
  (r : RecipeArguments.t) :
  read_key w m key = Ok r ->
  exists d, recipes w !! Path_stem key = Some d
            /\ RecipeArguments.id r = RecInfo.id d.
Proof.
  unfold read_key. rewrite read_recipe_eq.
  destruct (recipes w !! Path_stem key) as [d|]; [|done].
  intros [= <-]. by exists d.
Qed.

(** C9: when the listing returns, its records are, in order, the reads of
    the enumerated keys that do not contain "__" (neither such a key nor the
    object id it is read under contains "__"), and its ids are the ids of
    these records; the key of a stored object whose id contains "__" is
    enumerated and is none of the keys read. *)
Theorem listing_skips_reserved_keys (w : World)
  (ids : list string) (rs : list RecipeArguments.t) :
  Recipe.get_available_items w = Ok (ids, rs) ->
  Forall2 (fun key r =>
             contains "__" key = false
             /\ contains "__" (Path_stem key) = false
             /\ read_key w (Recipe._get_datasets_prompt_counts w) key = Ok r)
          (List.filter listed (Storage.get_objects "json" (recipes w))) rs
  /\ ids = RecipeArguments.id <$> rs
  /\ forall obj_id,
       is_Some (recipes w !! obj_id) -> contains "__" obj_id = true ->
       In (obj_id +:+ ".json") (Storage.get_objects "json" (recipes w))
       /\ ~ In (obj_id +:+ ".json")
              (List.filter listed (Storage.get_objects "json" (recipes w))).
Proof.
  intros Hget. apply get_available_items_spec in Hget as [Hrs ->].
  split; [|split; [done|]].
  - assert (Forall (fun key => contains "__" key = false)
              (List.filter listed (Storage.get_objects "json" (recipes w))))
      as Hkeys.
    { apply List.Forall_forall. intros key [_ Hkey]%filter_In.
      by apply negb_true_iff in Hkey. }
    revert Hkeys. induction Hrs as [|key r keys rs Hr Hrs IH]; intros Hkeys.
    + constructor.
    + apply Forall_cons in Hkeys as [Hkey Hkeys].
      constructor; [|by apply IH].
      split; [done|]. split; [by apply Path_stem_contains | done].
  - intros obj_id [d Hd] Hmark. split.
    + unfold Storage.get_objects. apply list_elem_of_In, list_elem_of_fmap.
      exists obj_id. split; [done|]. apply list_elem_of_fmap.
      exists (obj_id, d). split; [done|]. by apply elem_of_map_to_list.
    + intros [_ Hl]%filter_In. unfold listed in Hl.
      rewrite contains_mark_json, Hmark in Hl. done.
Qed.

Lemma listing_skips_reserved_keys_witness :
  exists ids rs,
    Recipe.get_available_items Demo.w0 = Ok (ids, rs)
    /\ ids = ["r1"; "r2"]
    /\ Forall2 (fun key r =>
             contains "__" key = false
             /\ contains "__" (Path_stem key) = false
             /\ read_key Demo.w0 (Recipe._get_datasets_prompt_counts Demo.w0) key
                = Ok r)
          (List.filter listed (Storage.get_objects "json" (recipes Demo.w0))) rs
    /\ ids = RecipeArguments.id <$> rs
    /\ forall obj_id,
         is_Some (recipes Demo.w0 !! obj_id) -> contains "__" obj_id = true ->
         In (obj_id +:+ ".json") (Storage.get_objects "json" (recipes Demo.w0))
         /\ ~ In (obj_id +:+ ".json")
                (List.filter listed
                   (Storage.get_objects "json" (recipes Demo.w0))).
Proof.
  eexists _, _. split; [vm_compute; reflexivity|]. split; [reflexivity|].
  apply (listing_skips_reserved_keys Demo.w0). vm_compute. reflexivity.
Defined.

(** C10: when the listing returns, the two lists have the same length, the
    id at each index is the id of the record at that index, and that id is
    the id field of the stored object the record was read from, whatever the
    key the object is stored under. *)
Theorem listing_ids_are_record_ids (w : World)
  (ids : list string) (rs : list RecipeArguments.t) :
  Recipe.get_available_items w = Ok (ids, rs) ->
  length ids = length rs
  /\ (forall i r, rs !! i = Some r -> ids !! i = Some (RecipeArguments.id r))
  /\ (forall i r, rs !! i = Some r ->
        exists key d,
          List.filter listed (Storage.get_objects "json" (recipes w)) !! i
          = Some key
          /\ recipes w !! Path_stem key = Some d
          /\ ids !! i = Some (RecInfo.id d)).
Proof.
  intros Hget. apply get_available_items_spec in Hget as [Hrs ->].
  split; [by rewrite length_fmap|].
  split.
  - intros i r Hr. by rewrite list_lookup_fmap, Hr.
  - intros i r Hr.
    destruct (Forall2_lookup_r _ _ _ _ _ Hrs Hr) as (key & Hkey & Hread).
    apply read_key_stored in Hread as (d & Hd & Hid).
    exists key, d. split; [done|]. split; [done|].
    by rewrite list_lookup_fmap, Hr, <- Hid.
Qed.

Lemma listing_ids_are_record_ids_witness :
  exists ids rs,
    Recipe.get_available_items w_alias = Ok (ids, rs)
    /\ ids = ["r9"]
    /\ length ids = length rs
    /\ (forall i r, rs !! i = Some r -> ids !! i = Some (RecipeArguments.id r))
    /\ (forall i r, rs !! i = Some r ->
          exists key d,
            List.filter listed (Storage.get_objects "json" (recipes w_alias))
              !! i = Some key
            /\ recipes w_alias !! Path_stem key = Some d
            /\ ids !! i = Some (RecInfo.id d)).
Proof.
  eexists _, _. split; [vm_compute; reflexivity|]. split; [reflexivity|].
  apply (listing_ids_are_record_ids w_alias). vm_compute. reflexivity.
Defined.

(** ** The scorer *)

Section ScorerProperties.
Context {F : Type} `{Float F}.
Variable scorer_score : string -> string -> result (string -> RougeScorer.Score F).

Import RougeScorer.

Lemma metrics_loop_eq (scores : string -> Score F)
  (r1 r2 rL p1 p2 pL f1 f2 fL : F) :
  metrics_loop scores (enumerate test_metrics)
               (mk_sums [r1; r2; rL] [p1; p2; pL] [f1; f2; fL]) ∅
  = Ok (mk_sums [fadd r1 (recall (scores "rouge1"));
                 fadd r2 (recall (scores "rouge2"));
                 fadd rL (recall (scores "rougeLsum"))]
                [fadd p1 (precision (scores "rouge1"));
                 fadd p2 (precision (scores "rouge2"));
                 fadd pL (precision (scores "rougeLsum"))]
                [fadd f1 (fmeasure (scores "rouge1"));
                 fadd f2 (fmeasure (scores "rouge2"));
                 fadd fL (fmeasure (scores "rougeLsum"))],
        entry scores).
Proof. reflexivity. Qed.

Lemma pairs_loop_ok (pairs : list (string * string))
  (r1 r2 rL p1 p2 pL f1 f2 fL : F)
  (individual_scores : list (gmap string (rpf F))) :
  scorable scorer_score pairs ->
  pairs_loop scorer_score pairs
             (mk_sums [r1; r2; rL] [p1; p2; pL] [f1; f2; fL]) individual_scores
  = Ok (sums_after (mk_sums [r1; r2; rL] [p1; p2; pL] [f1; f2; fL])
                   (scores_of scorer_score pairs),
        individual_scores ++ (entry <$> scores_of scorer_score pairs)).
Proof.
  intros Hpairs. revert r1 r2 rL p1 p2 pL f1 f2 fL individual_scores.
  induction Hpairs as [|[target prediction] pairs [scores Hsc] _ IH]; intros.
  - by rewrite app_nil_r.
  - cbn [pairs_loop scores_of omap list_omap]. rewrite Hsc.
    cbn [mbind result_bind]. rewrite metrics_loop_eq.
    cbn [mbind result_bind]. rewrite IH.
    fold (scores_of scorer_score pairs). rewrite fmap_cons, <- app_assoc. reflexivity.
Qed.

Lemma averages_loop_ok (n : nat) (r1 r2 rL p1 p2 pL f1 f2 fL : F) :
  n <> 0 ->
  averages_loop n
    (enumerate (zip (zip [r1; r2; rL] [p1; p2; pL]) [f1; f2; fL])) ∅
  = Ok (averages_of n (mk_sums [r1; r2; rL] [p1; p2; pL] [f1; f2; fL])).
Proof. destruct n as [|n]; [done|]. reflexivity. Qed.

Lemma averages_loop_zero (r1 r2 rL p1 p2 pL f1 f2 fL : F) :
  averages_loop 0
    (enumerate (zip (zip [r1; r2; rL] [p1; p2; pL]) [f1; f2; fL])) ∅
  = Raise ZeroDivisionError.
Proof. reflexivity. Qed.

(** What the scorer returns on a batch with a target, when the overlap
    computation returns on every pair of the zip *)
Lemma get_results_ok (prompts predicted_results targets : list string) :
  targets <> [] ->
  scorable scorer_score (zip targets predicted_results) ->
  get_results scorer_score prompts predicted_results targets
  = Ok (mk_output
          (entry <$> scores_of scorer_score (zip targets predicted_results))
          (averages_of (length targets)
             (sums_after (mk_sums [fzero; fzero; fzero] [fzero; fzero; fzero]
                                  [fzero; fzero; fzero])
                         (scores_of scorer_score (zip targets predicted_results))))).
Proof.
  intros Hne Hok. unfold get_results.
  rewrite (pairs_loop_ok _ _ _ _ _ _ _ _ _ _ [] Hok).
  cbn [mbind result_bind]. unfold sums_after at 1 2 3.
  cbn [avg_recall avg_precision avg_fmeasure].
  cbn [enumerate imap fmap list_fmap test_metrics].
  rewrite averages_loop_ok by (by destruct targets).
  reflexivity.
Qed.

(** Look a literal key up through a chain of inserts with literal keys. *)
Ltac lookup_inserts :=
  repeat first [rewrite lookup_insert_eq | rewrite lookup_insert_ne by done].

Lemma entry_lookup (scores : string -> Score F) (m : string) :
  m ∈ test_metrics ->
  entry scores !! m
  = Some (mk_rpf (recall (scores m)) (precision (scores m))
                 (fmeasure (scores m))).
Proof.
  unfold test_metrics, entry. intros Hm.
  repeat (apply elem_of_cons in Hm as [->|Hm]);
    [| | |by apply elem_of_nil in Hm];
    lookup_inserts; reflexivity.
Qed.

Lemma column_entries (get : rpf F -> F) (m : string)
  (scs : list (string -> Score F)) :
  m ∈ test_metrics ->
  column get m (entry <$> scs)
  = (fun sc => get (mk_rpf (recall (sc m)) (precision (sc m))
                           (fmeasure (sc m)))) <$> scs.
Proof.
  intros Hm. unfold column. induction scs as [|sc scs IH]; [done|].
  rewrite !fmap_cons. cbn [omap list_omap].
  rewrite entry_lookup by done. cbn [fmap option_fmap option_map].
  fold (omap (fun d : gmap string (rpf F) => get <$> d !! m) (entry <$> scs)).
  by rewrite IH.
Qed.

Lemma scores_of_length (pairs : list (string * string)) :
  scorable scorer_score pairs -> length (scores_of scorer_score pairs) = length pairs.
Proof.
  induction 1 as [|[target prediction] pairs [scores Hsc] _ IH]; [done|].
  cbn [scores_of omap list_omap]. rewrite Hsc. simpl. by f_equal.
Qed.

(** The averages of a result are the sums of the columns of its individual
    scores, divided by the number of targets. *)
Lemma averages_are_means (n : nat) (scs : list (string -> Score F)) (m : string) :
  m ∈ test_metrics ->
  averages_of n
    (sums_after (mk_sums [fzero; fzero; fzero] [fzero; fzero; fzero]
                         [fzero; fzero; fzero]) scs)
    !! ("avg_" +:+ m)
  = Some (mk_rpf (fdiv_int (fsum (column r m (entry <$> scs))) n)
                 (fdiv_int (fsum (column p m (entry <$> scs))) n)
                 (fdiv_int (fsum (column f m (entry <$> scs))) n)).
Proof.
  intros Hm. rewrite !column_entries by done. unfold fsum.
  unfold test_metrics in Hm.
  repeat (apply elem_of_cons in Hm as [->|Hm]);
    [| | |by apply elem_of_nil in Hm];
    unfold averages_of, sums_after;
    cbn [avg_recall avg_precision avg_fmeasure enumerate imap fmap list_fmap
         test_metrics];
    lookup_inserts; reflexivity.
Qed.

(** The dicts recorded for the pairs are, pair by pair, the scores of the
    overlap computation. *)
Lemma entries_score_pairs (pairs : list (string * string)) :
  scorable scorer_score pairs ->
  Forall2 (scores_pair scorer_score) pairs
          (entry <$> scores_of scorer_score pairs).
Proof.
  induction 1 as [|[target prediction] pairs [scores Hsc] _ IH];
    [constructor|].
  cbn [scores_of omap list_omap]. rewrite Hsc.
  fold (scores_of scorer_score pairs). rewrite fmap_cons.
  constructor; [|exact IH].
  exists scores. split; [exact Hsc|]. intros m Hm. by apply entry_lookup.
Qed.

Lemma column_entries_length (get : rpf F -> F) (m : string)
  (pairs : list (string * string)) :
  m ∈ test_metrics ->
  scorable scorer_score pairs ->
  length (column get m (entry <$> scores_of scorer_score pairs))
  = length pairs.
Proof.
  intros Hm Hok.
  by rewrite column_entries, length_fmap, scores_of_length.
Qed.

End ScorerProperties.

Section ScorerClaims.
Context {F : Type} `{Float F}.
Variable scorer_score : string -> string -> result (string -> RougeScorer.Score F).

Import RougeScorer.

(** C7: on a non-empty batch of N targets and N predictions on whose pairs
    the overlap computation returns, the scorer returns a result whose N
    individual scores are, pair by pair, the scores the overlap computation
    gives for (targets[i], predicted_results[i]), each holding the three
    metrics; and for each of the metrics rouge1, rouge2 and rougeLsum the
    entry "avg_<metric>" holds, under "r", "p" and "f", the sum of the N
    recall, precision and f-measure values of the individual scores for that
    metric, divided by N. *)
Theorem averages_are_arithmetic_means
  (prompts predicted_results targets : list string) :
  length targets = length predicted_results ->
  targets <> [] ->
  scorable scorer_score (zip targets predicted_results) ->
  exists out,
    get_results scorer_score prompts predicted_results targets = Ok out
    /\ length (rouge_scores out) = length targets
    /\ Forall2 (scores_pair scorer_score) (zip targets predicted_results)
               (rouge_scores out)
    /\ forall m, m ∈ test_metrics ->
         (forall get, length (column get m (rouge_scores out))
                      = length targets)
         /\ averages out !! ("avg_" +:+ m)
            = Some (mk_rpf
                      (fdiv_int (fsum (column r m (rouge_scores out)))
                                (length targets))
                      (fdiv_int (fsum (column p m (rouge_scores out)))
                                (length targets))
                      (fdiv_int (fsum (column f m (rouge_scores out)))
                                (length targets))).
Proof.
  intros Hlen Hne Hok. eexists. split; [by apply get_results_ok|].
  cbn [rouge_scores averages].
  assert (length (zip targets predicted_results) = length targets) as Hzip
    by (rewrite length_zip_with; lia).
  split; [by rewrite length_fmap, scores_of_length|].
  split; [by apply entries_score_pairs|].
  intros m Hm. split.
  - intros get. by rewrite column_entries_length.
  - by apply averages_are_means.
Qed.

(** C3, as amended: the scorer makes no check of the lengths.  When targets
    and predictions have different lengths and the overlap computation
    returns on the pairs of the zip, a non-empty list of targets yields a
    result: its individual scores are, pair by pair, the scores of the first
    min(len(targets), len(predicted_results)) pairs, and its averages are
    the sums of these scores divided by len(targets); an empty list of
    targets yields the RuntimeError of the division by zero. *)
Theorem mismatched_lengths_are_not_rejected
  (prompts predicted_results targets : list string) :
  length targets <> length predicted_results ->
  scorable scorer_score (zip targets predicted_results) ->
  (targets <> [] ->
   exists out,
     get_results scorer_score prompts predicted_results targets = Ok out
     /\ length (rouge_scores out)
        = Nat.min (length targets) (length predicted_results)
     /\ Forall2 (scores_pair scorer_score) (zip targets predicted_results)
                (rouge_scores out)
     /\ forall m, m ∈ test_metrics ->
          (forall get, length (column get m (rouge_scores out))
                       = Nat.min (length targets) (length predicted_results))
          /\ averages out !! ("avg_" +:+ m)
             = Some (mk_rpf
                       (fdiv_int (fsum (column r m (rouge_scores out)))
                                 (length targets))
                       (fdiv_int (fsum (column p m (rouge_scores out)))
                                 (length targets))
                       (fdiv_int (fsum (column f m (rouge_scores out)))
                                 (length targets))))
  /\ (targets = [] ->
      get_results scorer_score prompts predicted_results targets
      = Raise (RuntimeError
                 "Unable to calculate rouge score - float division by zero")).
Proof.
  intros _ Hok. split.
  - intros Hne. eexists. split; [by apply get_results_ok|].
    cbn [rouge_scores averages].
    split; [rewrite length_fmap, scores_of_length by done;
            apply length_zip_with|].
    split; [by apply entries_score_pairs|].
    intros m Hm. split.
    + intros get. rewrite column_entries_length by done.
      apply length_zip_with.
    + by apply averages_are_means.
  - intros ->. reflexivity.
Qed.

(** C5: on the empty batch, and on any batch without targets, the scorer
    raises the RuntimeError that wraps the division by zero; it returns no
    result. *)
Theorem empty_batch_raises (prompts : list string) :
  get_results scorer_score prompts [] []
  = Raise (RuntimeError
             "Unable to calculate rouge score - float division by zero")
  /\ forall predicted_results,
       get_results scorer_score prompts predicted_results []
       = Raise (RuntimeError
                  "Unable to calculate rouge score - float division by zero").
Proof. split; [reflexivity|]. intros predicted_results. reflexivity. Qed.

End ScorerClaims.

(** Two pairs, the first scoring 1 and the second 1/2: two individual
    scores, and averages (1 + 1/2) / 2 = 3/4. *)
Example get_results_two_pairs :
  exists out,
    RougeScorer.get_results RougeScorer.demo_score []
      ["the cat sat"; "a cat"] ["the cat sat"; "a dog"] = Ok out
    /\ (fun d => d !! "rouge1") <$> RougeScorer.rouge_scores out
       = [Some (RougeScorer.mk_rpf 1%Q 1%Q 1%Q);
          Some (RougeScorer.mk_rpf (1 # 2)%Q (1 # 2)%Q (1 # 2)%Q)]
    /\ RougeScorer.averages out !! "avg_rouge1"
       = Some (RougeScorer.mk_rpf (3 # 4)%Q (3 # 4)%Q (3 # 4)%Q).
Proof.
  eexists. split; [vm_compute; reflexivity|]. split; vm_compute; reflexivity.
Qed.

Lemma averages_are_arithmetic_means_witness :
  exists out,
    RougeScorer.get_results RougeScorer.demo_score []
      ["the cat sat"; "a cat"] ["the cat sat"; "a dog"] = Ok out
    /\ length (RougeScorer.rouge_scores out) = 2
    /\ Forall2 (scores_pair RougeScorer.demo_score)
               (zip ["the cat sat"; "a dog"] ["the cat sat"; "a cat"])
               (RougeScorer.rouge_scores out)
    /\ forall m, m ∈ RougeScorer.test_metrics ->
         (forall get, length (column get m (RougeScorer.rouge_scores out)) = 2)
         /\ RougeScorer.averages out !! ("avg_" +:+ m)
            = Some (RougeScorer.mk_rpf
                      (fdiv_int (fsum (column RougeScorer.r m
                                              (RougeScorer.rouge_scores out))) 2)
                      (fdiv_int (fsum (column RougeScorer.p m
                                              (RougeScorer.rouge_scores out))) 2)
                      (fdiv_int (fsum (column RougeScorer.f m
                                              (RougeScorer.rouge_scores out))) 2)).
Proof.
  apply (averages_are_arithmetic_means RougeScorer.demo_score []
           ["the cat sat"; "a cat"] ["the cat sat"; "a dog"]).
  - reflexivity.
  - discriminate.
  - repeat constructor; eexists; reflexivity.
Defined.

Lemma mismatched_lengths_are_not_rejected_witness :
  (["the cat sat"; "a dog"] <> [] ->
   exists out,
     RougeScorer.get_results RougeScorer.demo_score [] ["the cat sat"]
                             ["the cat sat"; "a dog"] = Ok out
     /\ length (RougeScorer.rouge_scores out) = Nat.min 2 1
     /\ Forall2 (scores_pair RougeScorer.demo_score)
                (zip ["the cat sat"; "a dog"] ["the cat sat"])
                (RougeScorer.rouge_scores out)
     /\ forall m, m ∈ RougeScorer.test_metrics ->
          (forall get, length (column get m (RougeScorer.rouge_scores out))
                       = Nat.min 2 1)
          /\ RougeScorer.averages out !! ("avg_" +:+ m)
             = Some (RougeScorer.mk_rpf
                       (fdiv_int (fsum (column RougeScorer.r m
                                               (RougeScorer.rouge_scores out))) 2)
                       (fdiv_int (fsum (column RougeScorer.p m
                                               (RougeScorer.rouge_scores out))) 2)
                       (fdiv_int (fsum (column RougeScorer.f m
                                               (RougeScorer.rouge_scores out))) 2)))
  /\ (["the cat sat"; "a dog"] = [] ->
      RougeScorer.get_results RougeScorer.demo_score [] ["the cat sat"]
                              ["the cat sat"; "a dog"]
      = Raise (RuntimeError
                 "Unable to calculate rouge score - float division by zero")).
Proof.
  apply (mismatched_lengths_are_not_rejected RougeScorer.demo_score []
           ["the cat sat"] ["the cat sat"; "a dog"]).
  - simpl. lia.
  - repeat constructor; eexists; reflexivity.
Defined.

(** C3 fails as stated: with two targets and one prediction the scorer
    computes the score of the one pair and returns a result, whose average
    for rouge1 is that score divided by two. *)
Lemma mismatched_lengths_counterexample :
  length ["the cat sat"; "a dog"] <> length ["the cat sat"]
  /\ exists out,
       RougeScorer.get_results RougeScorer.demo_score [] ["the cat sat"]
                               ["the cat sat"; "a dog"] = Ok out
       /\ length (RougeScorer.rouge_scores out) = 1
       /\ RougeScorer.averages out !! "avg_rouge1"
          = Some (RougeScorer.mk_rpf (1 # 2)%Q (1 # 2)%Q (1 # 2)%Q).
Proof.
  split; [simpl; lia|]. eexists. split; [vm_compute; reflexivity|].
  split; vm_compute; reflexivity.
Qed.

(** * Further properties of the registry *)

(** ** Statistics are recomputed on every read *)

Lemma set_stats_strip (d : RecInfo.t) (s : Stats) :
  RecInfo.set_stats (strip d) s = RecInfo.set_stats d s.
Proof. reflexivity. Qed.

(** X1: a statistics block found in the stored object never reaches the
    caller: reading an object gives the same result, on either path, as
    reading the object without its "stats" key; the statistics returned
    are computed from the lists of the object. *)
Theorem read_ignores_stored_stats (w : World) (rec_id : string)
  (d : RecInfo.t) (m : gmap string nat) :
  let with_stats := set_recipes w (<[rec_id := d]> (recipes w)) in
  let without := set_recipes w (<[rec_id := strip d]> (recipes w)) in
  Recipe._read_recipe with_stats rec_id m = Recipe._read_recipe without rec_id m
  /\ Recipe.read with_stats rec_id = Recipe.read without rec_id
  /\ Recipe._read_recipe with_stats rec_id m
     = Ok (RecInfo.set_stats d
             (mkStats (length (RecInfo.tags d)) (length (RecInfo.datasets d))
                      (length (RecInfo.prompt_templates d))
                      (length (RecInfo.metrics d))
                      (length (RecInfo.attack_modules d))
                      (if truthy m
                       then counts_precomputed m (RecInfo.datasets d)
                       else counts_fallback (catalog w) (RecInfo.datasets d)))).
Proof.
  intros with_stats without.
  assert (forall m', Recipe._read_recipe with_stats rec_id m'
                     = Recipe._read_recipe without rec_id m') as Hsame.
  { intros m'. rewrite !read_recipe_eq. unfold with_stats, without. simpl.
    by rewrite !lookup_insert_eq, set_stats_strip. }
  split; [apply Hsame|]. split.
  - unfold Recipe.read. by rewrite Hsame.
  - rewrite read_recipe_eq. unfold with_stats. simpl.
    by rewrite lookup_insert_eq.
Qed.

(** ** Update, create and the store *)

Lemma read_after_write (w : World) (rec_id : string) (d : RecInfo.t) :
  rec_id <> "" ->
  Recipe.read (set_recipes w (Storage.create_object rec_id d (recipes w))) rec_id
  = Ok (RecipeArguments.of_dict
          (RecInfo.set_stats d
             (derive (set_recipes w (Storage.create_object rec_id d (recipes w)))
                     d ∅))).
Proof.
  intros Hne. rewrite read_eq, decide_False by done.
  unfold Storage.create_object. simpl. by rewrite lookup_insert_eq.
Qed.

(** X2: after [update] with arguments of a non-empty id, [read] of that id
    returns the ten fields of the arguments, and statistics computed from
    their lists: the five counts are the lengths, whatever statistics the
    arguments carried. *)
Theorem update_then_read (rec_args : RecipeArguments.t) (w : World) :
  RecipeArguments.id rec_args <> "" ->
  exists (r : RecipeArguments.t) (s : Stats),
    (Recipe.update rec_args w).1 = Ok true
    /\ Recipe.read (Recipe.update rec_args w).2 (RecipeArguments.id rec_args)
       = Ok r
    /\ RecipeArguments.id r = RecipeArguments.id rec_args
    /\ base_fields_equal (Recipe.init r) rec_args
    /\ RecipeArguments.stats r = Some s
    /\ stats_count s rec_args.
Proof.
  intros Hne. unfold Recipe.update. cbn [fst snd].
  eexists _, _. split; [reflexivity|].
  split; [by apply read_after_write|].
  split; [reflexivity|]. split; [by repeat split|].
  split; [reflexivity|]. by repeat split.
Qed.

Lemma update_then_read_witness :
  exists (r : RecipeArguments.t) (s : Stats),
    (Recipe.update renamed_r2 Demo.w0).1 = Ok true
    /\ Recipe.read
         (Recipe.update renamed_r2
                        Demo.w0).2
         (RecipeArguments.id renamed_r2)
       = Ok r
    /\ RecipeArguments.id r
       = RecipeArguments.id renamed_r2
    /\ base_fields_equal (Recipe.init r)
                         renamed_r2
    /\ RecipeArguments.stats r = Some s
    /\ stats_count s renamed_r2.
Proof.
  apply (update_then_read renamed_r2
           Demo.w0).
  vm_compute. discriminate.
Defined.

(** X3: [create] makes no check for an existing record: when two field sets
    have names with the same non-empty slug, the second [create] returns the
    same id as the first and replaces its record, so that [load] of the id
    returns the fields of the second. *)
Theorem create_overwrites_same_slug (slugify : string -> string)
  (first second : RecipeArguments.t) (w : World) :
  slugify (RecipeArguments.name first) = slugify (RecipeArguments.name second) ->
  slugify (RecipeArguments.name second) <> "" ->
  let w1 := (Recipe.create slugify first w).2 in
  exists r,
    (Recipe.create slugify second w1).1 = (Recipe.create slugify first w).1
    /\ Recipe.load (Recipe.create slugify second w1).2
                   (slugify (RecipeArguments.name first)) = Ok r
    /\ base_fields_equal r second.
Proof.
  intros Hslug Hne w1. unfold Recipe.load, Recipe.create. cbn [fst snd].
  rewrite Hslug, read_after_write by done.
  eexists. split; [reflexivity|]. split; [reflexivity|]. by repeat split.
Qed.

Lemma create_overwrites_same_slug_witness :
  let w1 := (Recipe.create Slugify.slugify
               (Demo.args "My Recipe" ["arc"] None) Demo.w0).2 in
  exists r,
    (Recipe.create Slugify.slugify (Demo.args "my recipe!" ["squad"] None) w1).1
    = (Recipe.create Slugify.slugify
         (Demo.args "My Recipe" ["arc"] None) Demo.w0).1
    /\ Recipe.load
         (Recipe.create Slugify.slugify
            (Demo.args "my recipe!" ["squad"] None) w1).2
         (Slugify.slugify
            (RecipeArguments.name (Demo.args "My Recipe" ["arc"] None)))
       = Ok r
    /\ base_fields_equal r (Demo.args "my recipe!" ["squad"] None).
Proof.
  apply (create_overwrites_same_slug Slugify.slugify
           (Demo.args "My Recipe" ["arc"] None)
           (Demo.args "my recipe!" ["squad"] None) Demo.w0).
  - reflexivity.
  - vm_compute. discriminate.
Defined.

Lemma create_key_is_id slugify rec_args w :
  key_is_id w -> key_is_id (Recipe.create slugify rec_args w).2.
Proof.
  unfold key_is_id, Recipe.create, Storage.create_object. intros Hw.
  cbn [snd recipes set_recipes]. by apply map_Forall_insert_2.
Qed.

Lemma update_key_is_id rec_args w :
  key_is_id w -> key_is_id (Recipe.update rec_args w).2.
Proof.
  unfold key_is_id, Recipe.update, Storage.create_object. intros Hw.
  cbn [snd recipes set_recipes]. by apply map_Forall_insert_2.
Qed.

Lemma delete_key_is_id rec_id w :
  key_is_id w -> key_is_id (Recipe.delete rec_id w).2.
Proof.
  unfold key_is_id, Recipe.delete, Storage.delete_object. intros Hw.
  destruct (recipes w !! rec_id); cbn [snd recipes set_recipes]; [|done].
  by apply map_Forall_delete.
Qed.

(** X4: the writes of the registry keep the id field of a stored object
    equal to the id it is stored under: if this holds of a store, it holds
    after any sequence of [create] and [update] operations, and after a
    [delete] that follows them. *)
Theorem writes_keep_key_is_id (slugify : string -> string)
  (ops : list operation) (rec_id : string) (w : World) :
  key_is_id w ->
  key_is_id (run slugify ops w)
  /\ key_is_id (Recipe.delete rec_id (run slugify ops w)).2.
Proof.
  intros Hw.
  assert (key_is_id (run slugify ops w)) as Hrun.
  { unfold run. revert w Hw. induction ops as [|o ops IH]; intros w Hw; [done|].
    simpl. apply IH. destruct o as [rec_args|rec_args]; simpl.
    - by apply create_key_is_id.
    - by apply update_key_is_id. }
  split; [done | by apply delete_key_is_id].
Qed.

Lemma writes_keep_key_is_id_witness :
  key_is_id (run Slugify.slugify demo_operations Demo.w0)
  /\ key_is_id
       (Recipe.delete "r1" (run Slugify.slugify demo_operations Demo.w0)).2.
Proof.
  apply (writes_keep_key_is_id Slugify.slugify demo_operations "r1" Demo.w0).
  unfold key_is_id, Demo.w0. simpl.
  repeat apply map_Forall_insert_2; try reflexivity.
  apply map_Forall_empty.
Defined.

(** ** When the listing fails *)

Lemma read_key_Ok (w : World) (m : gmap string nat) (key : string) :
  is_Ok (read_key w m key) <-> is_Some (recipes w !! Path_stem key).
Proof.
  unfold read_key, is_Ok. rewrite read_recipe_eq.
  destruct (recipes w !! Path_stem key) as [d|]; simpl.
  - split; [by eexists | by eexists].
  - split; [by intros [a Ha] | by intros [d Hd]].
Qed.

Lemma read_key_Raise (w : World) (m : gmap string nat) (key : string)
  (e : exception) :
  read_key w m key = Raise e ->
  recipes w !! Path_stem key = None /\ e = not_found (Path_stem key).
Proof.
  unfold read_key. rewrite read_recipe_eq.
  destruct (recipes w !! Path_stem key) as [d|]; simpl; [done|].
  by intros [= <-].
Qed.

Lemma get_available_items_loop_Ok (w : World) (m : gmap string nat)
  (recs : list string) (ids0 : list string) (rs0 : list RecipeArguments.t) :
  Forall (fun key => is_Ok (read_key w m key)) (List.filter listed recs) ->
  is_Ok (Recipe.get_available_items_loop w m recs ids0 rs0).
Proof.
  revert ids0 rs0. induction recs as [|rec recs IH]; intros ids0 rs0 Hall.
  - by eexists.
  - simpl in *. unfold listed in Hall at 1.
    destruct (contains "__" rec); simpl in Hall; [by apply IH|].
    apply Forall_cons in Hall as [[a Ha] Hall].
    fold (read_key w m rec). rewrite Ha. simpl. by apply IH.
Qed.

Lemma get_available_items_loop_Raise (w : World) (m : gmap string nat)
  (recs : list string) (ids0 : list string) (rs0 : list RecipeArguments.t)
  (e : exception) :
  Recipe.get_available_items_loop w m recs ids0 rs0 = Raise e ->
  exists before key after,
    List.filter listed recs = before ++ key :: after
    /\ Forall (fun key => is_Ok (read_key w m key)) before
    /\ read_key w m key = Raise e.
Proof.
  revert ids0 rs0. induction recs as [|rec recs IH]; intros ids0 rs0 Hloop;
    [done|].
  simpl in *. unfold listed at 1.
  destruct (contains "__" rec); simpl; [by eapply IH|].
  fold (read_key w m rec) in Hloop.
  destruct (read_key w m rec) as [a|e'] eqn:Hread; simpl in Hloop.
  - apply IH in Hloop as (before & key & after & -> & Hbefore & Hkey).
    exists (rec :: before), key, after. split; [done|].
    split; [|done]. constructor; [by eexists | done].
  - injection Hloop as ->. by exists [], rec, (List.filter listed recs).
Qed.

(** X5: the listing has no partial success: it returns exactly when the
    read of every enumerated key without the reserved mark returns; one such
    read that raises makes the whole listing raise. *)
Theorem listing_returns_iff_reads_return (w : World) :
  is_Ok (Recipe.get_available_items w)
  <-> Forall (fun key =>
                is_Ok (read_key w (Recipe._get_datasets_prompt_counts w) key))
             (List.filter listed (Storage.get_objects "json" (recipes w))).
Proof.
  unfold Recipe.get_available_items, try_except.
  set (m := Recipe._get_datasets_prompt_counts w).
  set (recs := Storage.get_objects "json" (recipes w)).
  split.
  - intros [[ids rs] Hok].
    destruct (Recipe.get_available_items_loop w m recs [] []) as [res|e]
      eqn:Hloop; [|done].
    destruct res as [ids' rs'].
    apply get_available_items_loop_spec in Hloop as (new & Hnew & _).
    clear Hok. induction Hnew as [|key r keys new' Hr Hnew IH]; constructor.
    + by eexists.
    + exact IH.
  - intros Hall.
    destruct (get_available_items_loop_Ok w m recs [] [] Hall) as [res Hres].
    rewrite Hres. by eexists.
Qed.

(** X6: when the listing fails, the exception it raises is the one raised
    by the read of the first enumerated key without the reserved mark whose
    read raises; the reads of the keys before it returned, and no list is
    returned. *)
Theorem listing_raises_first_failing_read (w : World) (e : exception) :
  Recipe.get_available_items w = Raise e ->
  exists before key after,
    List.filter listed (Storage.get_objects "json" (recipes w))
    = before ++ key :: after
    /\ Forall (fun key =>
                 is_Ok (read_key w (Recipe._get_datasets_prompt_counts w) key))
              before
    /\ read_key w (Recipe._get_datasets_prompt_counts w) key = Raise e.
Proof.
  unfold Recipe.get_available_items, try_except, Recipe.reraise.
  set (m := Recipe._get_datasets_prompt_counts w).
  set (recs := Storage.get_objects "json" (recipes w)).
  destruct (Recipe.get_available_items_loop w m recs [] []) as [res|e']
    eqn:Hloop; [done|].
  intros [= <-]. by apply get_available_items_loop_Raise in Hloop.
Qed.

Lemma listing_raises_first_failing_read_witness :
  exists before key after,
    List.filter listed (Storage.get_objects "json" (recipes w_nested))
    = before ++ key :: after
    /\ Forall (fun key =>
                 is_Ok (read_key w_nested
                          (Recipe._get_datasets_prompt_counts w_nested) key))
              before
    /\ read_key w_nested (Recipe._get_datasets_prompt_counts w_nested) key
       = Raise (not_found "r1").
Proof.
  apply (listing_raises_first_failing_read w_nested (not_found "r1")).
  vm_compute. reflexivity.
Defined.

(** ** The listing of a store of plain ids *)

Lemma split_cons (sep a : ascii) (s : string) :
  split sep (String a s)
  = if Ascii.eqb a sep then EmptyString :: split sep s
    else match split sep s with
         | h :: t => String a h :: t
         | [] => [String a EmptyString]
         end.
Proof. reflexivity. Qed.

Lemma prefix_empty (s : string) : String.prefix "" s = true.
Proof. by destruct s. Qed.

Lemma contains_slash_cons (c : ascii) (s : string) :
  contains "/" (String c s) = false ->
  Ascii.eqb c "/" = false /\ contains "/" s = false.
Proof.
  rewrite contains_cons, prefix_cons, orb_false_iff. intros [Hp Hs].
  split; [|done]. apply Ascii.eqb_neq.
  destruct (ascii_dec "/" c) as [<-|Hne]; [|congruence].
  by rewrite prefix_empty in Hp.
Qed.

Lemma split_json (i : string) :
  contains "/" i = false -> split "/" (i +:+ ".json") = [i +:+ ".json"].
Proof.
  induction i as [|c i IH]; intros Hi; [reflexivity|].
  apply contains_slash_cons in Hi as [Hc Hi].
  by rewrite str_app_cons, split_cons, Hc, IH.
Qed.

Lemma str_length_app (a b : string) :
  String.length (a +:+ b) = String.length a + String.length b.
Proof.
  induction a as [|c a IH]; [done|]. rewrite str_app_cons. simpl. by rewrite IH.
Qed.

Lemma Path_name_json (i : string) :
  contains "/" i = false -> Path_name (i +:+ ".json") = i +:+ ".json".
Proof.
  intros Hi. unfold Path_name. rewrite split_json by done.
  cbn [List.filter].
  assert (String.length (i +:+ ".json") = String.length i + 5) as Hlen
    by apply str_length_app.
  assert (String.eqb (i +:+ ".json") "" = false) as ->.
  { apply String.eqb_neq. intros Heq. rewrite Heq in Hlen. simpl in Hlen. lia. }
  assert (String.eqb (i +:+ ".json") "." = false) as ->.
  { apply String.eqb_neq. intros Heq. rewrite Heq in Hlen. simpl in Hlen. lia. }
  reflexivity.
Qed.

Lemma rfind_app (c : ascii) (i s : string) (k : nat) :
  rfind c s = Some k -> rfind c (i +:+ s) = Some (String.length i + k).
Proof.
  intros Hs. induction i as [|a i IH]; [done|].
  rewrite str_app_cons. simpl. by rewrite IH.
Qed.

Lemma substring_app (i s : string) :
  String.substring 0 (String.length i) (i +:+ s) = i.
Proof.
  induction i as [|a i IH]; [by destruct s|].
  rewrite str_app_cons. simpl. by rewrite IH.
Qed.

(** The stem of the key enumerated for a plain object id is the id. *)
Lemma Path_stem_json (i : string) :
  plain i = true -> Path_stem (i +:+ ".json") = i.
Proof.
  unfold plain. rewrite andb_true_iff, !negb_true_iff.
  intros [Hne Hslash]. apply String.eqb_neq in Hne.
  unfold Path_stem. rewrite Path_name_json by done.
  rewrite (rfind_app "." i ".json" 0) by reflexivity.
  rewrite str_length_app, Nat.add_0_r. simpl String.length.
  assert (Nat.ltb 0 (String.length i) = true) as ->.
  { apply Nat.ltb_lt. destruct i; [done | simpl; lia]. }
  assert (Nat.ltb (String.length i) (String.length i + 5 - 1) = true) as ->.
  { apply Nat.ltb_lt. lia. }
  apply substring_app.
Qed.

Lemma get_available_items_loop_plain (w : World) (ids : list string)
  (ids0 : list string) (rs0 : list RecipeArguments.t) :
  Forall (fun i => plain i = true /\ is_Some (recipes w !! i)) ids ->
  Recipe.get_available_items_loop w (Recipe._get_datasets_prompt_counts w)
    ((fun i => i +:+ ".json") <$> ids) ids0 rs0
  = Ok (ids0 ++ (RecipeArguments.id <$> listed_records w ids),
        rs0 ++ listed_records w ids).
Proof.
  intros Hids. revert ids0 rs0.
  induction Hids as [|i ids [Hplain [d Hd]] _ IH]; intros ids0 rs0.
  - simpl. by rewrite !app_nil_r.
  - rewrite fmap_cons. cbn [Recipe.get_available_items_loop].
    cbn [listed_records omap list_omap].
    rewrite contains_mark_json. destruct (contains "__" i).
    + apply IH.
    + rewrite Path_stem_json, read_recipe_eq, Hd by done.
      cbn [fmap result_fmap mbind result_bind option_fmap option_map].
      rewrite IH. fold (listed_record w d).
      by rewrite fmap_cons, <- !app_assoc.
Qed.

Lemma stored_ids_stored (w : World) :
  Forall (fun i => is_Some (recipes w !! i)) (stored_ids w).
Proof.
  apply List.Forall_forall. intros i Hi.
  apply list_elem_of_In, list_elem_of_fmap in Hi as ([j d] & -> & Hjd).
  apply elem_of_map_to_list in Hjd. by exists d.
Qed.

Lemma get_available_items_plain (w : World) :
  plain_store w ->
  Recipe.get_available_items w
  = Ok (RecipeArguments.id <$> listed_records w (stored_ids w),
        listed_records w (stored_ids w)).
Proof.
  intros Hplain. unfold Recipe.get_available_items, Storage.get_objects.
  change (fun i : string => i +:+ "." +:+ "json")
    with (fun i : string => i +:+ ".json").
  fold (stored_ids w). rewrite get_available_items_loop_plain; [done|].
  eapply Forall_impl; [apply stored_ids_stored|].
  intros i Hi. split; [by apply Hplain | done].
Qed.

Lemma listed_records_ids (w : World) (ids : list string) :
  key_is_id w ->
  Forall (fun i => is_Some (recipes w !! i)) ids ->
  RecipeArguments.id <$> listed_records w ids
  = List.filter (fun i => negb (contains "__" i)) ids.
Proof.
  intros Hkey Hids. induction Hids as [|i ids [d Hd] _ IH]; [done|].
  cbn [listed_records omap list_omap List.filter].
  destruct (contains "__" i); cbn [negb]; [exact IH|].
  rewrite Hd. cbn [fmap option_fmap option_map].
  fold (listed_records w ids). rewrite fmap_cons, IH. f_equal.
  apply (Hkey i d Hd).
Qed.



Lemma Ok_inj {A} (a b : A) : Ok a = Ok b -> a = b.
Proof. by intros [= ->]. Qed.

(** When every dataset of a stored recipe is in the catalog, the records of
    the listing are the results of the single reads. *)
Lemma listed_records_read (w : World) (ids : list string) :
  (forall i d k, recipes w !! i = Some d -> k ∈ RecInfo.datasets d ->
                 is_Some (catalog w !! k)) ->
  Forall (fun i => plain i = true /\ is_Some (recipes w !! i)) ids ->
  Forall2 (fun i r => Recipe.read w i = Ok r)
          (List.filter (fun i => negb (contains "__" i)) ids)
          (listed_records w ids).
Proof.
  intros Hknown Hids.
  induction Hids as [|i ids [Hplain [d Hd]] _ IH]; [constructor|].
  cbn [listed_records omap list_omap List.filter].
  destruct (contains "__" i); cbn [negb]; [exact IH|].
  rewrite Hd. cbn [fmap option_fmap option_map].
  constructor; [|exact IH].
  unfold plain in Hplain. apply andb_true_iff in Hplain as [Hne _].
  apply negb_true_iff, String.eqb_neq in Hne.
  rewrite read_eq, decide_False, Hd by done.
  pose proof (read_recipe_paths_agree w i (Hknown i)) as Hagree.
  rewrite !read_recipe_eq, Hd in Hagree.
  unfold listed_record. f_equal. f_equal. symmetry. by apply Ok_inj.
Qed.



(** * Further properties of the scorer *)

Section ScorerFurther.
Context {F : Type} `{Float F}.
Variable scorer_score : string -> string -> result (string -> RougeScorer.Score F).

Import RougeScorer.

Lemma pairs_loop_Raise (before after : list (string * string))
  (target prediction : string) (e : exception)
  (r1 r2 rL p1 p2 pL f1 f2 fL : F)
  (individual_scores : list (gmap string (rpf F))) :
  scorable scorer_score before ->
  scorer_score target prediction = Raise e ->
  pairs_loop scorer_score (before ++ (target, prediction) :: after)
             (mk_sums [r1; r2; rL] [p1; p2; pL] [f1; f2; fL]) individual_scores
  = Raise e.
Proof.
  intros Hbefore Hraise.
  revert r1 r2 rL p1 p2 pL f1 f2 fL individual_scores.
  induction Hbefore as [|[t p] before [scores Hsc] _ IH]; intros.
  - cbn [app pairs_loop]. by rewrite Hraise.
  - cbn [app pairs_loop]. rewrite Hsc. cbn [mbind result_bind].
    rewrite metrics_loop_eq. cbn [mbind result_bind]. apply IH.
Qed.

(** Either the overlap computation returns on every pair, or there is a
    first pair on which it raises. *)
Lemma scorable_or_raises (pairs : list (string * string)) :
  scorable scorer_score pairs
  \/ exists before target prediction after e,
       pairs = before ++ (target, prediction) :: after
       /\ scorable scorer_score before
       /\ scorer_score target prediction = Raise e.
Proof.
  induction pairs as [|[t p] pairs IH]; [left; constructor|].
  destruct (scorer_score t p) as [scores|e] eqn:Hsc.
  - destruct IH as [IH|(before & t' & p' & after & e & -> & Hbefore & He)].
    + left. constructor; [by eexists | done].
    + right. exists ((t, p) :: before), t', p', after, e.
      split; [done|]. split; [|done]. constructor; [by eexists | done].
  - right. exists [], t, p, pairs, e. split; [done|]. split; [constructor|done].
Qed.

Lemma get_results_Raise_pair (prompts predicted_results targets : list string)
  (before after : list (string * string)) (target prediction : string)
  (e : exception) :
  zip targets predicted_results = before ++ (target, prediction) :: after ->
  scorable scorer_score before ->
  scorer_score target prediction = Raise e ->
  get_results scorer_score prompts predicted_results targets
  = Raise (scoring_error e).
Proof.
  intros Hzip Hbefore Hraise. unfold get_results.
  by rewrite Hzip, (pairs_loop_Raise _ _ _ _ e).
Qed.

Lemma get_results_no_targets (prompts predicted_results : list string) :
  get_results scorer_score prompts predicted_results []
  = Raise (scoring_error ZeroDivisionError).
Proof. reflexivity. Qed.

Lemma get_results_Ok_inv (prompts predicted_results targets : list string)
  (out : output F) :
  get_results scorer_score prompts predicted_results targets = Ok out ->
  targets <> [] /\ scorable scorer_score (zip targets predicted_results).
Proof.
  intros Hout. split.
  - intros ->. by rewrite get_results_no_targets in Hout.
  - destruct (scorable_or_raises (zip targets predicted_results))
      as [Hok|(before & t & p & after & e & Hzip & Hbefore & He)]; [done|].
    by rewrite (get_results_Raise_pair _ _ _ _ _ _ _ _ Hzip Hbefore He)
      in Hout.
Qed.

(** X9: the scorer returns a result exactly when there is a target and the
    overlap computation returns on every pair of
    [zip(targets, predicted_results)]. *)
Theorem get_results_returns_iff
  (prompts predicted_results targets : list string) :
  is_Ok (get_results scorer_score prompts predicted_results targets)
  <-> targets <> [] /\ scorable scorer_score (zip targets predicted_results).
Proof.
  split.
  - intros [out Hout]. by eapply get_results_Ok_inv.
  - intros [Hne Hok]. rewrite get_results_ok by done. by eexists.
Qed.

(** X10: however the scorer fails, it raises a RuntimeError whose message
    is "Unable to calculate rouge score - " followed by the text of the
    cause: without targets the cause is the division by zero; otherwise it is
    the exception of the first pair on which the overlap computation raises,
    and the pairs after it are not scored. *)
Theorem get_results_raises_cause
  (prompts predicted_results targets : list string) (e : exception) :
  get_results scorer_score prompts predicted_results targets = Raise e ->
  (targets = [] /\ e = scoring_error ZeroDivisionError)
  \/ exists before target prediction after cause,
       zip targets predicted_results
       = before ++ (target, prediction) :: after
       /\ scorable scorer_score before
       /\ scorer_score target prediction = Raise cause
       /\ e = scoring_error cause.
Proof.
  intros Hraise.
  destruct (scorable_or_raises (zip targets predicted_results))
    as [Hok|(before & t & p & after & cause & Hzip & Hbefore & He)].
  - left. destruct targets as [|t targets].
    + rewrite get_results_no_targets in Hraise. split; congruence.
    + by rewrite get_results_ok in Hraise.
  - right. exists before, t, p, after, cause.
    rewrite (get_results_Raise_pair _ _ _ _ _ _ _ _ Hzip Hbefore He) in Hraise.
    repeat split; congruence.
Qed.

Lemma scores_of_lookup (pairs : list (string * string)) (i : nat)
  (target prediction : string) :
  scorable scorer_score pairs ->
  pairs !! i = Some (target, prediction) ->
  exists scores,
    scorer_score target prediction = Ok scores
    /\ scores_of scorer_score pairs !! i = Some scores.
Proof.
  intros Hok. revert i.
  induction Hok as [|[t p] pairs [scores Hsc] _ IH]; intros i Hi; [done|].
  cbn [scores_of omap list_omap]. rewrite Hsc.
  fold (scores_of scorer_score pairs).
  destruct i as [|i]; simpl in Hi.
  - injection Hi as -> ->. by exists scores.
  - by apply IH.
Qed.

(** X11: the individual scores are in the order of the pairs: in a result,
    the entry at index i is the dict built from the scores of
    (targets[i], predicted_results[i]), with the recall, precision and
    f-measure of each of the three metrics under "r", "p" and "f". *)
Theorem individual_scores_by_index
  (prompts predicted_results targets : list string) (out : output F)
  (i : nat) (target prediction : string) :
  get_results scorer_score prompts predicted_results targets = Ok out ->
  targets !! i = Some target ->
  predicted_results !! i = Some prediction ->
  exists scores test_metrics_dict,
    scorer_score target prediction = Ok scores
    /\ rouge_scores out !! i = Some test_metrics_dict
    /\ forall m, m ∈ test_metrics ->
         test_metrics_dict !! m
         = Some (mk_rpf (recall (scores m)) (precision (scores m))
                        (fmeasure (scores m))).
Proof.
  intros Hout Ht Hp.
  destruct (get_results_Ok_inv _ _ _ _ Hout) as [Hne Hok].
  rewrite get_results_ok in Hout by done. apply Ok_inj in Hout as <-.
  destruct (scores_of_lookup (zip targets predicted_results) i target prediction)
    as (scores & Hsc & Hlookup); [done| |].
  { rewrite lookup_zip_with, Ht, Hp. done. }
  exists scores, (entry scores). split; [done|]. split.
  - cbn [rouge_scores]. by rewrite list_lookup_fmap, Hlookup.
  - intros m Hm. by apply entry_lookup.
Qed.

End ScorerFurther.

Section ScorerShape.
Context {F : Type} `{Float F}.
Variable scorer_score : string -> string -> result (string -> RougeScorer.Score F).

Import RougeScorer.

Lemma entry_dom (scores : string -> Score F) :
  dom (entry scores) = list_to_set test_metrics.
Proof.
  unfold entry, test_metrics. rewrite !dom_insert_L, dom_empty_L.
  cbn [list_to_set foldr]. apply set_eq. intros k.
  rewrite !elem_of_union, !elem_of_singleton. tauto.
Qed.

Lemma averages_of_dom (n : nat) (r1 r2 rL p1 p2 pL f1 f2 fL : F) :
  dom (averages_of n (mk_sums [r1; r2; rL] [p1; p2; pL] [f1; f2; fL]))
  = list_to_set ((fun m => "avg_" +:+ m) <$> test_metrics).
Proof.
  unfold averages_of, test_metrics. cbn [avg_recall avg_precision avg_fmeasure].
  rewrite !dom_insert_L, dom_empty_L.
  cbn [fmap list_fmap list_to_set foldr]. apply set_eq. intros k.
  rewrite !elem_of_union, !elem_of_singleton. tauto.
Qed.

(** X12: in a result of the scorer, every individual score has exactly the
    keys "rouge1", "rouge2" and "rougeLsum", and the averages have exactly
    the keys "avg_rouge1", "avg_rouge2" and "avg_rougeLsum". *)
Theorem result_keys (prompts predicted_results targets : list string)
  (out : output F) :
  get_results scorer_score prompts predicted_results targets = Ok out ->
  Forall (fun test_metrics_dict =>
            dom test_metrics_dict = list_to_set test_metrics)
         (rouge_scores out)
  /\ dom (averages out)
     = list_to_set ((fun m => "avg_" +:+ m) <$> test_metrics).
Proof.
  intros Hout. destruct (get_results_Ok_inv _ _ _ _ _ Hout) as [Hne Hok].
  rewrite get_results_ok in Hout by done. apply Ok_inj in Hout as <-.
  cbn [rouge_scores averages]. split.
  - apply List.Forall_forall. intros d Hd.
    apply list_elem_of_In, list_elem_of_fmap in Hd as (scores & -> & _).
    apply entry_dom.
  - apply averages_of_dom.
Qed.

(** X13: predictions beyond the number of targets are never looked at: the
    scorer returns the same on the predictions cut to the length of the
    targets. *)
Theorem surplus_predictions_ignored
  (prompts predicted_results targets : list string) :
  get_results scorer_score prompts
              (take (length targets) predicted_results) targets
  = get_results scorer_score prompts predicted_results targets.
Proof.
  unfold get_results. by rewrite zip_with_take_r.
Qed.

End ScorerShape.

Lemma get_results_raises_cause_witness :
  (["the cat sat"; "a dog"; "a bird"] = []
   /\ scoring_error (LibraryError "empty prediction")
      = scoring_error ZeroDivisionError)
  \/ exists before target prediction after cause,
       zip ["the cat sat"; "a dog"; "a bird"] ["the cat sat"; ""; "a bird"]
       = before ++ (target, prediction) :: after
       /\ scorable strict_score before
       /\ strict_score target prediction = Raise cause
       /\ scoring_error (LibraryError "empty prediction")
          = scoring_error cause.
Proof.
  apply (get_results_raises_cause strict_score []
           ["the cat sat"; ""; "a bird"] ["the cat sat"; "a dog"; "a bird"]
           (scoring_error (LibraryError "empty prediction"))).
  reflexivity.
Defined.

Lemma individual_scores_by_index_witness :
  exists out,
    RougeScorer.get_results RougeScorer.demo_score []
      ["the cat sat"; "a cat"] ["the cat sat"; "a dog"] = Ok out
    /\ exists scores test_metrics_dict,
         RougeScorer.demo_score "a dog" "a cat" = Ok scores
         /\ RougeScorer.rouge_scores out !! 1 = Some test_metrics_dict
         /\ forall m, m ∈ RougeScorer.test_metrics ->
              test_metrics_dict !! m
              = Some (RougeScorer.mk_rpf (RougeScorer.recall (scores m))
                                         (RougeScorer.precision (scores m))
                                         (RougeScorer.fmeasure (scores m))).
Proof.
  assert (RougeScorer.get_results RougeScorer.demo_score []
            ["the cat sat"; "a cat"] ["the cat sat"; "a dog"]
          = Ok (RougeScorer.mk_output
                  (entry <$> scores_of RougeScorer.demo_score
                               (zip ["the cat sat"; "a dog"]
                                    ["the cat sat"; "a cat"]))
                  (averages_of 2
                     (sums_after
                        (RougeScorer.mk_sums [fzero; fzero; fzero]
                                             [fzero; fzero; fzero]
                                             [fzero; fzero; fzero])
                        (scores_of RougeScorer.demo_score
                           (zip ["the cat sat"; "a dog"]
                                ["the cat sat"; "a cat"])))))) as Hout.
  { apply get_results_ok; [discriminate|].
    repeat constructor; eexists; reflexivity. }
  eexists. split; [exact Hout|].
  apply (individual_scores_by_index RougeScorer.demo_score []
           ["the cat sat"; "a cat"] ["the cat sat"; "a dog"] _ 1 "a dog" "a cat"
           Hout); reflexivity.
Defined.

Lemma result_keys_witness :
  exists out,
    RougeScorer.get_results RougeScorer.demo_score []
      ["the cat sat"] ["the cat sat"] = Ok out
    /\ Forall (fun test_metrics_dict =>
                 dom test_metrics_dict = list_to_set RougeScorer.test_metrics)
              (RougeScorer.rouge_scores out)
    /\ dom (RougeScorer.averages out)
       = list_to_set ((fun m => "avg_" +:+ m) <$> RougeScorer.test_metrics).
Proof.
  assert (RougeScorer.get_results RougeScorer.demo_score []
            ["the cat sat"] ["the cat sat"]
          = Ok (RougeScorer.mk_output
                  (entry <$> scores_of RougeScorer.demo_score
                               (zip ["the cat sat"] ["the cat sat"]))
                  (averages_of 1
                     (sums_after
                        (RougeScorer.mk_sums [fzero; fzero; fzero]
                                             [fzero; fzero; fzero]
                                             [fzero; fzero; fzero])
                        (scores_of RougeScorer.demo_score
                           (zip ["the cat sat"] ["the cat sat"])))))) as Hout.
  { apply get_results_ok; [discriminate|].
    repeat constructor; eexists; reflexivity. }
  eexists. split; [exact Hout|].
  exact (result_keys RougeScorer.demo_score [] ["the cat sat"] ["the cat sat"]
           _ Hout).
Defined.

(** * Further properties of the registry: frames and the listing's counts *)

Lemma read_frame (w : World) (st : gmap string RecInfo.t) (other : string) :
  st !! other = recipes w !! other ->
  Recipe.read (set_recipes w st) other = Recipe.read w other.
Proof.
  intros Hother. rewrite !read_eq. cbn [recipes set_recipes]. rewrite Hother.
  destruct (decide (other = "")); [done|].
  by destruct (recipes w !! other).
Qed.

(** X14: a write touches the record it addresses only: after [create],
    [update] or [delete], the read of any other id returns what it returned
    before. *)
Theorem writes_leave_other_reads (slugify : string -> string)
  (rec_args : RecipeArguments.t) (rec_id other : string) (w : World) :
  (other <> slugify (RecipeArguments.name rec_args) ->
   Recipe.read (Recipe.create slugify rec_args w).2 other = Recipe.read w other)
  /\ (other <> RecipeArguments.id rec_args ->
      Recipe.read (Recipe.update rec_args w).2 other = Recipe.read w other)
  /\ (other <> rec_id ->
      Recipe.read (Recipe.delete rec_id w).2 other = Recipe.read w other).
Proof.
  split; [|split]; intros Hne.
  - unfold Recipe.create, Storage.create_object. cbn [snd].
    apply read_frame. by rewrite lookup_insert_ne.
  - unfold Recipe.update, Storage.create_object. cbn [snd].
    apply read_frame. by rewrite lookup_insert_ne.
  - unfold Recipe.delete, Storage.delete_object.
    destruct (recipes w !! rec_id); cbn [snd]; apply read_frame; [|done].
    by rewrite lookup_delete_ne.
Qed.

Lemma read_key_counts (w : World) (m : gmap string nat) (key : string)
  (r : RecipeArguments.t) :
  m <> ∅ ->
  read_key w m key = Ok r ->
  prompt_counts_of r = Some (counts_precomputed m (RecipeArguments.datasets r)).
Proof.
  intros Hm. unfold read_key. rewrite read_recipe_eq.
  destruct (recipes w !! Path_stem key) as [d|]; [|done].
  intros [= <-]. unfold prompt_counts_of, derive. simpl.
  apply truthy_true in Hm. by rewrite Hm.
Qed.

(** X15: when the map the listing computes from the dataset catalog is not
    empty, every record it returns has per-dataset counts keyed exactly by
    the record's own dataset list: each listed dataset has the count the map
    gives it, and 0 when the map does not know it. *)
Theorem listing_counts_unknown_as_zero (w : World)
  (ids : list string) (rs : list RecipeArguments.t) :
  Recipe._get_datasets_prompt_counts w <> ∅ ->
  Recipe.get_available_items w = Ok (ids, rs) ->
  Forall (fun r =>
            exists counts,
              prompt_counts_of r = Some counts
              /\ dom counts = list_to_set (RecipeArguments.datasets r)
              /\ forall k, k ∈ RecipeArguments.datasets r ->
                   counts !! k
                   = Some (default 0
                             (Recipe._get_datasets_prompt_counts w !! k)))
         rs.
Proof.
  intros Hm Hget. apply get_available_items_spec in Hget as [Hrs _].
  induction Hrs as [|key r keys rs Hr _ IH]; constructor; [|exact IH].
  apply (read_key_counts _ _ _ _ Hm) in Hr.
  eexists. split; [exact Hr|]. split; [apply counts_precomputed_dom|].
  intros k Hk. by rewrite counts_precomputed_lookup, decide_True.
Qed.

Lemma listing_counts_unknown_as_zero_witness :
  exists ids rs,
    Recipe.get_available_items Demo.w0 = Ok (ids, rs)
    /\ Forall (fun r =>
            exists counts,
              prompt_counts_of r = Some counts
              /\ dom counts = list_to_set (RecipeArguments.datasets r)
              /\ forall k, k ∈ RecipeArguments.datasets r ->
                   counts !! k
                   = Some (default 0
                             (Recipe._get_datasets_prompt_counts Demo.w0 !! k)))
         rs.
Proof.
  eexists _, _. split; [vm_compute; reflexivity|].
  eapply (listing_counts_unknown_as_zero Demo.w0).
  - intros Hempty. vm_compute in Hempty. discriminate Hempty.
  - vm_compute. reflexivity.
Defined.
